(** * GoBus: seat ledger and booking lifecycle

    A shallow embedding of the seat-inventory and booking-lifecycle code of
    the GoBus backend, and the properties its specification states about it.

    Embedded sources:
    - the Bus model: the validators of the two ledger fields, the pre-save
      hook, [bookSeats], [releaseSeats], [isBookable];
    - the Booking model: the validators of the schema, the virtuals
      [canCancel] and [eligibleRefundAmount], the pre-save hook,
      [cancelBooking], [confirmBooking], [checkSeatAvailability];
    - the booking controller: [createBooking], [confirmBooking],
      [cancelBooking], with the validators of the create route;
    - the bus controller: [updateBus] and [deleteBus];
    - the middleware of [roleAuth.js] and [auth.js].

    Modelling conventions.
    - The document store is a pair of finite maps keyed by [_id].  A handler
      is a function from the store to a response and the store it leaves
      behind; a model method is a computation that may throw, and the
      writes made before a throw stay (the code has no transaction).
    - Execution is sequential: one request runs to completion.
    - JavaScript numbers that hold counts and instants are integers ([Z],
      instants in milliseconds since the epoch).  Amounts of money are
      IEEE-754 binary64 values with the arithmetic of the language
      (round to nearest, ties to even); the quotient [hoursUntilTravel]
      is only compared with 2 and 24, and for a difference of two instants
      that comparison gives the same answer on the exact quotient, which
      is what the model computes.
    - [new Date()] reads the instant [now] of the request; local time is UTC
      shifted by the constant offset [tz].
    - A write through a document ([save], [create]) validates the whole
      document, then runs the pre-save hook, then stores the document: the
      library registers validation ahead of the hooks of the schema.  A
      failed validation throws and nothing is written.
    - For a bus the validators followed are the range validators of
      [capacity] and [availableSeats]; a new bus without [availableSeats]
      is a document where it is 0, which the hook treats alike.  For a
      booking every validator of the schema is followed; [bookingId] has a
      default and is left out.  The library joins the messages of all the
      validators that fail; the model keeps the first, and the one place
      that reads the message, the test for 'cannot be cancelled' in the
      cancel handler, answers the same on both.
    - A request holds the fields the route's format validators
      ([isMongoId], [isISO8601], [isIn], the contact validators) let
      through; the validators on passengers are followed.
    - [populate] only decorates the response and is left out; strings in a
      request are taken as they are after the route's sanitizers. *)

From Stdlib Require Import ZArith QArith Qround Ascii String List Bool Lia.
From Stdlib Require Import SpecFloat.
From stdpp Require Import gmap strings list fin_maps.

Open Scope Z_scope.

(** ** Shared vocabulary *)

Abbreviation ObjectId := nat.

Inductive Weekday :=
  Sunday | Monday | Tuesday | Wednesday | Thursday | Friday | Saturday.

Inductive BusStatus := active | inactive | maintenance.

Inductive BookingStatus := pending | confirmed | cancelled | completed.

Inductive PaymentStatus := payment_pending | paid | refunded | failed.

Inductive PaymentMethod := cash | card | upi | wallet | netbanking.

Inductive Gender := male | female | other.

Inductive Role := user | admin.

#[global] Instance Weekday_eq_dec : EqDecision Weekday.
Proof. solve_decision. Defined.
#[global] Instance BusStatus_eq_dec : EqDecision BusStatus.
Proof. solve_decision. Defined.
#[global] Instance BookingStatus_eq_dec : EqDecision BookingStatus.
Proof. solve_decision. Defined.
#[global] Instance PaymentStatus_eq_dec : EqDecision PaymentStatus.
Proof. solve_decision. Defined.
#[global] Instance Role_eq_dec : EqDecision Role.
Proof. solve_decision. Defined.

(** What [throw] carries: the constructor name and the message. *)
Inductive Exn :=
| Error (message : string)
| ValidationError (message : string).

Definition message (e : Exn) : string :=
  match e with Error m | ValidationError m => m end.

(** [haystack.includes(needle)] on strings. *)
Fixpoint String_includes (haystack needle : string) : bool :=
  String.prefix needle haystack ||
  match haystack with
  | EmptyString => false
  | String _ rest => String_includes rest needle
  end.

(** The environment of one request: the clock and the server's time zone. *)
Record Env := { now : Z; tz : Z }.

Definition msPerHour : Z := 1000 * 60 * 60.
Definition msPerDay : Z := 24 * msPerHour.

(** [d.setHours(0, 0, 0, 0)]: local midnight of the day of [d]. *)
Definition startOfDay (env : Env) (d : Z) : Z :=
  d - (d + tz env) mod msPerDay.

(** [d.setHours(23, 59, 59, 999)]. *)
Definition endOfDay (env : Env) (d : Z) : Z :=
  startOfDay env d + msPerDay - 1.

(** [d.toLocaleDateString('en-US', { weekday: 'long' })]; the epoch fell on
    a Thursday. *)
Definition dayName (env : Env) (d : Z) : Weekday :=
  match ((d + tz env) / msPerDay + 4) mod 7 with
  | 0 => Sunday
  | 1 => Monday
  | 2 => Tuesday
  | 3 => Wednesday
  | 4 => Thursday
  | 5 => Friday
  | _ => Saturday
  end.

(** ** JavaScript numbers *)

(** A number that holds an amount of money: a binary64 value. *)
Module Number.

Definition t : Type := spec_float.

Definition prec : Z := 53.
Definition emax : Z := 1024.

(** The number an integer converts to. *)
Definition of_Z (z : Z) : t := binary_normalize prec emax z 0 false.

(** [x * y]. *)
Definition mul (x y : t) : t := SFmul prec emax x y.

(** [x >= y]. *)
Definition geb (x y : t) : bool := SFleb y x.

(** The literals [0.9] and [0.5]. *)
Definition nine_tenths : t := S754_finite false 8106479329266893 (-53).
Definition half : t := S754_finite false 4503599627370496 (-53).

(** [Math.floor(x)] for a finite [x], as an integer.  The products the
    code floors are those of a stored amount with [0.9] or [0.5], finite
    whenever the amount is; the other values of [spec_float] answer 0
    here and stand for no amount of the model. *)
Definition floor (x : t) : Z :=
  match x with
  | S754_finite s m e =>
      let v := if s then Z.neg m else Z.pos m in
      if 0 <=? e then v * 2 ^ e else v / 2 ^ (- e)
  | _ => 0
  end.

(** Zero or finite, and in the format. *)
Definition finite (x : t) : bool :=
  match x with
  | S754_zero _ => true
  | S754_finite _ m e => bounded prec emax m e
  | _ => false
  end.

End Number.

(** ** Regular expressions *)

(** The patterns of the schema use literals, classes, concatenation,
    alternation and repetition, anchored at both ends; a string matches
    when it is in the language of the pattern. *)
Inductive Regex :=
| Never
| Eps
| Class (p : ascii -> bool)
| Cat (r s : Regex)
| Alt (r s : Regex)
| Star (r : Regex).

Fixpoint nullable (r : Regex) : bool :=
  match r with
  | Never => false
  | Eps => true
  | Class _ => false
  | Cat r s => nullable r && nullable s
  | Alt r s => nullable r || nullable s
  | Star _ => true
  end.

(** What is left of [r] after the character [c]. *)
Fixpoint deriv (c : ascii) (r : Regex) : Regex :=
  match r with
  | Never => Never
  | Eps => Never
  | Class p => if p c then Eps else Never
  | Cat r s =>
      if nullable r
      then Alt (Cat (deriv c r) s) (deriv c s)
      else Cat (deriv c r) s
  | Alt r s => Alt (deriv c r) (deriv c s)
  | Star r => Cat (deriv c r) (Star r)
  end.

(** [/^r$/.test(s)]. *)
Fixpoint RegExp_test (r : Regex) (s : string) : bool :=
  match s with
  | EmptyString => nullable r
  | String c rest => RegExp_test (deriv c r) rest
  end.

Definition between (lo hi c : ascii) : bool :=
  (nat_of_ascii lo <=? nat_of_ascii c)%nat
  && (nat_of_ascii c <=? nat_of_ascii hi)%nat.

(** [\d] and [\w]. *)
Definition digit (c : ascii) : bool := between "0" "9" c.

Definition word (c : ascii) : bool :=
  between "a" "z" c || between "A" "Z" c || digit c || Ascii.eqb c "_".

Definition plus (r : Regex) : Regex := Cat r (Star r).
Definition opt (r : Regex) : Regex := Alt Eps r.

Fixpoint times (n : nat) (r : Regex) : Regex :=
  match n with
  | O => Eps
  | S n' => Cat r (times n' r)
  end.

(** [/^\d{10}$/]. *)
Definition phonePattern : Regex := times 10 (Class digit).

(** [\w+([.-]?\w+)*]. *)
Definition dottedWords : Regex :=
  Cat (plus (Class word))
    (Star (Cat (opt (Class (fun c => Ascii.eqb c "." || Ascii.eqb c "-")))
                (plus (Class word)))).

(** [/^\w+([.-]?\w+)*@\w+([.-]?\w+)*(\.\w{2,3})+$/]. *)
Definition emailPattern : Regex :=
  Cat dottedWords
    (Cat (Class (fun c => Ascii.eqb c "@"))
       (Cat dottedWords
          (plus (Cat (Class (fun c => Ascii.eqb c "."))
                   (Cat (times 2 (Class word)) (opt (Class word))))))).

(** ** Documents *)

Module BusDoc.
Record t := mk {
  _id : ObjectId;
  capacity : Z;
  availableSeats : Z;
  fare : Number.t;
  operatingDays : list Weekday;
  status : BusStatus
}.

Definition set_availableSeats (n : Z) (b : t) : t :=
  mk (_id b) (capacity b) n (fare b) (operatingDays b) (status b).

Definition set__id (i : ObjectId) (b : t) : t :=
  mk i (capacity b) (availableSeats b) (fare b) (operatingDays b) (status b).
End BusDoc.

Record Passenger := {
  name : string;
  age : Z;
  gender : Gender;
  seatNumber : string
}.

Record ContactInfo := { phone : string; email : string }.

Module BookingDoc.
Record t := mk {
  _id : ObjectId;
  userId : ObjectId;
  busId : ObjectId;
  passengerDetails : list Passenger;
  bookingDate : option Z;
  travelDate : Z;
  totalAmount : Number.t;
  seatCount : Z;
  status : BookingStatus;
  paymentStatus : PaymentStatus;
  paymentMethod : PaymentMethod;
  cancellationReason : option string;
  cancellationDate : option Z;
  refundAmount : Z;
  contactInfo : ContactInfo
}.

Definition set_bookingDate (d : Z) (b : t) : t :=
  mk (_id b) (userId b) (busId b) (passengerDetails b) (Some d)
     (travelDate b) (totalAmount b) (seatCount b) (status b)
     (paymentStatus b) (paymentMethod b) (cancellationReason b)
     (cancellationDate b) (refundAmount b) (contactInfo b).

Definition set_status (s : BookingStatus) (b : t) : t :=
  mk (_id b) (userId b) (busId b) (passengerDetails b) (bookingDate b)
     (travelDate b) (totalAmount b) (seatCount b) s (paymentStatus b)
     (paymentMethod b) (cancellationReason b) (cancellationDate b)
     (refundAmount b) (contactInfo b).

Definition set_paymentStatus (p : PaymentStatus) (b : t) : t :=
  mk (_id b) (userId b) (busId b) (passengerDetails b) (bookingDate b)
     (travelDate b) (totalAmount b) (seatCount b) (status b) p
     (paymentMethod b) (cancellationReason b) (cancellationDate b)
     (refundAmount b) (contactInfo b).

Definition set_cancellationReason (r : string) (b : t) : t :=
  mk (_id b) (userId b) (busId b) (passengerDetails b) (bookingDate b)
     (travelDate b) (totalAmount b) (seatCount b) (status b)
     (paymentStatus b) (paymentMethod b) (Some r) (cancellationDate b)
     (refundAmount b) (contactInfo b).

Definition set_cancellationDate (d : Z) (b : t) : t :=
  mk (_id b) (userId b) (busId b) (passengerDetails b) (bookingDate b)
     (travelDate b) (totalAmount b) (seatCount b) (status b)
     (paymentStatus b) (paymentMethod b) (cancellationReason b) (Some d)
     (refundAmount b) (contactInfo b).

Definition set_refundAmount (r : Z) (b : t) : t :=
  mk (_id b) (userId b) (busId b) (passengerDetails b) (bookingDate b)
     (travelDate b) (totalAmount b) (seatCount b) (status b)
     (paymentStatus b) (paymentMethod b) (cancellationReason b)
     (cancellationDate b) r (contactInfo b).
End BookingDoc.

(** ** The store and computations over it *)

Record Store := mkStore {
  buses : gmap nat BusDoc.t;
  bookings : gmap nat BookingDoc.t
}.

Definition set_buses (m : gmap nat BusDoc.t) (st : Store) : Store :=
  mkStore m (bookings st).

Definition set_bookings (m : gmap nat BookingDoc.t) (st : Store) : Store :=
  mkStore (buses st) m.

Inductive Outcome (A : Type) :=
| Ok (a : A)
| Throw (e : Exn).
Arguments Ok {A} a.
Arguments Throw {A} e.

(** A computation reads and writes the store and ends with a value or a
    thrown exception; the store it returns is the one left behind in both
    cases. *)
Definition M (A : Type) : Type := Store -> Outcome A * Store.

Definition ret {A} (a : A) : M A := fun st => (Ok a, st).

Definition throw {A} (e : Exn) : M A := fun st => (Throw e, st).

Definition bind {A B} (c : M A) (k : A -> M B) : M B :=
  fun st =>
    match c st with
    | (Ok a, st') => k a st'
    | (Throw e, st') => (Throw e, st')
    end.

Notation "'await' x <- c ;; k" := (bind c (fun x => k))
  (at level 10, x name, c at level 99, k at level 200).

(** [try { body } catch (error) { handler }], for a handler that answers. *)
Definition try_catch {A} (body : M A) (handler : Exn -> A) : Store -> A * Store :=
  fun st =>
    match body st with
    | (Ok a, st') => (a, st')
    | (Throw e, st') => (handler e, st')
    end.

(** ** The Bus model *)

Module Bus.
Import BusDoc.

Definition findById (id : ObjectId) : M (option t) :=
  fun st => (Ok (buses st !! id), st).

(** The [min] and [max] validators of [capacity]. *)
Definition capacityError (c : Z) : option string :=
  if c <? 1 then Some "Capacity must be at least 1"%string
  else if 100 <? c then Some "Capacity cannot exceed 100 seats"%string
  else None.

(** The [min] validator of [availableSeats]. *)
Definition availableSeatsError (a : Z) : option string :=
  if a <? 0 then Some "Available seats cannot be negative"%string
  else None.

(** Validation of a document: the first validator that fails. *)
Definition validate (this : t) : option string :=
  match capacityError (capacity this) with
  | Some msg => Some msg
  | None => availableSeatsError (availableSeats this)
  end.

(** [busSchema.pre('save', ...)]. *)
Definition pre_save (isNew : bool) (this : t) : t :=
  let this :=
    if isNew && (availableSeats this =? 0)
    then set_availableSeats (capacity this) this
    else this in
  if availableSeats this >? capacity this
  then set_availableSeats (capacity this) this
  else this.

Definition save (isNew : bool) (this : t) : M t :=
  match validate this with
  | Some msg => throw (ValidationError msg)
  | None =>
      let doc := pre_save isNew this in
      fun st => (Ok doc, set_buses (<[_id doc := doc]> (buses st)) st)
  end.

(** [Bus.create(data)]: a new document under a fresh [_id]. *)
Definition create (data : t) : M t :=
  fun st => save true (set__id (fresh (dom (buses st))) data) st.

(** [busSchema.methods.bookSeats]; [this] is a document that was loaded
    from the store. *)
Definition bookSeats (this : t) (seatCount : Z) : M t :=
  if availableSeats this >=? seatCount
  then save false (set_availableSeats (availableSeats this - seatCount) this)
  else throw (Error "Not enough available seats").

(** [busSchema.methods.releaseSeats]. *)
Definition releaseSeats (this : t) (seatCount : Z) : M t :=
  save false
    (set_availableSeats
       (Z.min (availableSeats this + seatCount) (capacity this)) this).

(** The update documents the model follows: a request body that sets
    [capacity], [availableSeats] or [status] to a value, an absent field
    being left as it is.  A body that sets other fields, or that holds
    update operators of the database, is not of this type. *)
Record Update := {
  upd_capacity : option Z;
  upd_availableSeats : option Z;
  upd_status : option BusStatus
}.

Definition applyUpdate (u : Update) (b : t) : t :=
  mk (_id b)
     (default (capacity b) (upd_capacity u))
     (default (availableSeats b) (upd_availableSeats u))
     (fare b) (operatingDays b)
     (default (status b) (upd_status u)).

(** The update validators ([runValidators: true]) look at the fields that
    the update sets, one at a time. *)
Definition validateUpdate (u : Update) : option string :=
  match upd_capacity u ≫= capacityError with
  | Some msg => Some msg
  | None => upd_availableSeats u ≫= availableSeatsError
  end.

(** [Bus.findByIdAndUpdate(id, update, { new: true, runValidators: true })]:
    the update is written to the store as it is; the save hook does not
    run. *)
Definition findByIdAndUpdate (id : ObjectId) (u : Update) : M (option t) :=
  match validateUpdate u with
  | Some msg => throw (ValidationError msg)
  | None =>
      fun st =>
        match buses st !! id with
        | Some b =>
            let doc := applyUpdate u b in
            (Ok (Some doc), set_buses (<[id := doc]> (buses st)) st)
        | None => (Ok None, st)
        end
  end.

(** The virtual [isBookable]. *)
Definition isBookable (this : t) : bool :=
  bool_decide (status this = active) && (availableSeats this >? 0).

(** [Bus.findByIdAndDelete(id)]: answers the document that was stored. *)
Definition findByIdAndDelete (id : ObjectId) : M (option t) :=
  fun st => (Ok (buses st !! id), set_buses (delete id (buses st)) st).
End Bus.

(** ** The Booking model *)

(** [array.includes(x)] on an array of strings. *)
Definition Array_includes (l : list string) (x : string) : bool :=
  existsb (String.eqb x) l.

(** [x > y] on rationals. *)
Definition Qgtb (x y : Q) : bool := negb (Qle_bool x y).

(** The validators of one element of [passengerDetails]. *)
Definition passengerError (p : Passenger) : option string :=
  if String.eqb (name p) "" then Some "Passenger name is required"%string
  else if age p <? 1 then Some "Age must be at least 1"%string
  else if 120 <? age p then Some "Age cannot exceed 120"%string
  else if String.eqb (seatNumber p) ""
       then Some "Seat number is required"%string
  else None.

(** The first element that fails. *)
Fixpoint passengersError (ps : list Passenger) : option string :=
  match ps with
  | [] => None
  | p :: rest =>
      match passengerError p with
      | Some msg => Some msg
      | None => passengersError rest
      end
  end.

(** [required] and [match] on [contactInfo.phone]. *)
Definition phoneError (s : string) : option string :=
  if String.eqb s "" then Some "Contact phone is required"%string
  else if negb (RegExp_test phonePattern s)
       then Some "Please provide a valid 10-digit phone number"%string
  else None.

(** [required] and [match] on [contactInfo.email]. *)
Definition emailError (s : string) : option string :=
  if String.eqb s "" then Some "Contact email is required"%string
  else if negb (RegExp_test emailPattern s)
       then Some "Please provide a valid email address"%string
  else None.

(** The first of two validations that fails. *)
Definition orError (a b : option string) : option string :=
  match a with
  | Some msg => Some msg
  | None => b
  end.

Module Booking.
Import BookingDoc.

Definition findById (id : ObjectId) : M (option t) :=
  fun st => (Ok (bookings st !! id), st).

(** [timeDifference / (1000 * 60 * 60)]. *)
Definition hoursUntilTravel (env : Env) (this : t) : Q :=
  let timeDifference := travelDate this - now env in
  (inject_Z timeDifference / inject_Z msPerHour)%Q.

(** The virtual [canCancel]. *)
Definition canCancel (env : Env) (this : t) : bool :=
  if negb (bool_decide (status this = confirmed)) then false
  else Qgtb (hoursUntilTravel env this) 2.

(** The virtual [eligibleRefundAmount]. *)
Definition eligibleRefundAmount (env : Env) (this : t) : Z :=
  if negb (canCancel env this) then 0
  else if Qgtb (hoursUntilTravel env this) 24
       then Number.floor (Number.mul (totalAmount this) Number.nine_tenths)
  else if Qgtb (hoursUntilTravel env this) 2
       then Number.floor (Number.mul (totalAmount this) Number.half)
  else 0.

(** The validators of the schema, in the order of its paths.  The one of
    [travelDate] reads the clock: [value >= new Date().setHours(0, 0, 0, 0)]. *)
Definition validate (env : Env) (this : t) : option string :=
  orError (passengersError (passengerDetails this))
  (orError (match bookingDate this with
            | None => Some "Booking date is required"%string
            | Some _ => None
            end)
  (orError (if travelDate this <? startOfDay env (now env)
            then Some "Travel date cannot be in the past"%string
            else None)
  (orError (if negb (Number.geb (totalAmount this) (Number.of_Z 0))
            then Some "Total amount must be positive"%string
            else None)
  (orError (if seatCount this <? 1
            then Some "At least one seat must be booked"%string
            else None)
  (orError (if refundAmount this <? 0
            then Some "Refund amount cannot be negative"%string
            else None)
  (orError (phoneError (phone (contactInfo this)))
           (emailError (email (contactInfo this))))))))).

(** [bookingSchema.pre('save', ...)]. *)
Definition pre_save (env : Env) (isNew : bool) (this : t) : t :=
  if isNew then set_bookingDate (now env) this else this.

(** [doc.save()]: validation comes first, then the hook. *)
Definition save (env : Env) (isNew : bool) (this : t) : M t :=
  match validate env this with
  | Some msg => throw (ValidationError msg)
  | None =>
      let doc := pre_save env isNew this in
      fun st => (Ok doc, set_bookings (<[_id doc := doc]> (bookings st)) st)
  end.

(** The object handed to [Booking.create] by the controller. *)
Record Data := {
  data_userId : ObjectId;
  data_busId : ObjectId;
  data_passengerDetails : list Passenger;
  data_travelDate : Z;
  data_totalAmount : Number.t;
  data_seatCount : Z;
  data_paymentMethod : PaymentMethod;
  data_contactInfo : ContactInfo;
  data_status : BookingStatus
}.

(** [Booking.create(bookingData)]: a new document under a fresh [_id], with
    the schema defaults for [paymentStatus] and [refundAmount].  The data
    hold no [bookingDate], the schema gives it no default, and the hook
    that sets it runs after validation. *)
Definition create (env : Env) (d : Data) : M t :=
  fun st =>
    save env true
      (mk (fresh (dom (bookings st))) (data_userId d) (data_busId d)
          (data_passengerDetails d) None (data_travelDate d)
          (data_totalAmount d) (data_seatCount d) (data_status d)
          payment_pending (data_paymentMethod d) None None 0
          (data_contactInfo d))
      st.

(** [bookingSchema.methods.cancelBooking].  The fields are assigned in the
    order of the source, so each getter reads the document as it stands at
    that point. *)
Definition cancelBooking (env : Env) (this : t) (reason : string) : M t :=
  if negb (canCancel env this)
  then throw (Error "Booking cannot be cancelled at this time")
  else
    let this := set_status cancelled this in
    let this := set_cancellationReason reason this in
    let this := set_cancellationDate (now env) this in
    let this := set_refundAmount (eligibleRefundAmount env this) this in
    let this :=
      set_paymentStatus (if refundAmount this >? 0 then refunded else paid)
        this in
    await bus <- Bus.findById (busId this) ;;
    await released <- match bus with
                      | Some bus =>
                          await saved <- Bus.releaseSeats bus (seatCount this) ;;
                          ret tt
                      | None => ret tt
                      end ;;
    save env false this.

(** [bookingSchema.methods.confirmBooking]. *)
Definition confirmBooking (env : Env) (this : t) : M t :=
  let this := set_status confirmed this in
  let this := set_paymentStatus paid this in
  save env false this.

(** The filter of the query in [checkSeatAvailability]. *)
Definition sameBusAndDay (env : Env) (bus : ObjectId) (date : Z) (b : t)
  : bool :=
  Nat.eqb (busId b) bus
  && (startOfDay env date <=? travelDate b)
  && (travelDate b <=? endOfDay env date)
  && bool_decide (status b ∈ [confirmed; pending]).

(** [this.find(filter)]: the stored documents that pass the filter. *)
Definition find (p : t -> bool) : M (list t) :=
  fun st => (Ok (List.filter p (map snd (map_to_list (bookings st)))), st).

(** [query.distinct('passengerDetails.seatNumber')]. *)
Definition distinct_seatNumber (docs : list t) : list string :=
  remove_dups (flat_map (fun b => map seatNumber (passengerDetails b)) docs).

(** [bookingSchema.statics.checkSeatAvailability]. *)
Definition checkSeatAvailability (env : Env) (bus : ObjectId) (date : Z)
    (requestedSeats : list string) : M bool :=
  await docs <- find (sameBusAndDay env bus date) ;;
  let bookedSeats := distinct_seatNumber docs in
  ret (negb (existsb (fun seat => Array_includes bookedSeats seat)
               requestedSeats)).

(** [Booking.countDocuments(filter)]. *)
Definition countDocuments (p : t -> bool) : M Z :=
  await docs <- find p ;;
  ret (Z.of_nat (length docs)).
End Booking.

(** ** The booking controller *)

Record User := { user_id : ObjectId; role : Role }.

(** The JSON bodies the handlers answer with. *)
Inductive Body :=
| ValidationFailed
| BusNotFound
| BusNotAvailable
| TravelDateInPast
| BusDoesNotOperate (day : Weekday) (operating : list Weekday)
| OnlySeatsAvailable (available requested : Z)
| SeatsAlreadyBooked
| BookingCreated (booking : BookingDoc.t)
| BookingNotFound
| CannotBeConfirmed (current : BookingStatus)
| BookingConfirmed (booking : BookingDoc.t)
| AccessDenied
| AlreadyCancelled
| CannotCancelCompleted
| BookingCancelled (booking : BookingDoc.t) (refund : Z) (refundStatus : string)
| ErrorMessage (msg : string)
| BusUpdated (bus : option BusDoc.t)
| ServerError (msg : string).

Record Response := json { statusCode : Z; body : Body }.

Module bookingController.

Record CreateRequest := {
  create_user : User;
  create_busId : ObjectId;
  create_passengerDetails : list Passenger;
  create_travelDate : Z;
  create_paymentMethod : PaymentMethod;
  create_contactInfo : ContactInfo
}.

(** The validators of [POST /api/bookings] on one passenger. *)
Definition passengerRules (p : Passenger) : bool :=
  negb (String.eqb (name p) "")
  && (2 <=? String.length (name p))%nat
  && (String.length (name p) <=? 50)%nat
  && (1 <=? age p) && (age p <=? 120)
  && negb (String.eqb (seatNumber p) "").

(** [validationResult(req).isEmpty()] for [POST /api/bookings]. *)
Definition validationResult_isEmpty (req : CreateRequest) : bool :=
  (1 <=? length (create_passengerDetails req))%nat
  && forallb passengerRules (create_passengerDetails req).

(** [passengerDetails.map(p => p.seatNumber).filter(Boolean)]. *)
Definition requestedSeatsOf (ps : list Passenger) : list string :=
  List.filter (fun s => negb (String.eqb s "")) (map seatNumber ps).

Definition createBooking (env : Env) (req : CreateRequest)
  : Store -> Response * Store :=
  try_catch
    (if negb (validationResult_isEmpty req)
     then ret (json 400 ValidationFailed)
     else
       let busId := create_busId req in
       let passengerDetails := create_passengerDetails req in
       let travelDate := create_travelDate req in
       await bus <- Bus.findById busId ;;
       match bus with
       | None => ret (json 404 BusNotFound)
       | Some bus =>
         if negb (bool_decide (BusDoc.status bus = active))
         then ret (json 400 BusNotAvailable)
         else
           let travelDateTime := travelDate in
           let today := startOfDay env (now env) in
           if travelDateTime <? today
           then ret (json 400 TravelDateInPast)
           else
             let dayName := dayName env travelDateTime in
             if negb (bool_decide (dayName ∈ BusDoc.operatingDays bus))
             then ret (json 400
                         (BusDoesNotOperate dayName (BusDoc.operatingDays bus)))
             else
               let seatCount := Z.of_nat (length passengerDetails) in
               if BusDoc.availableSeats bus <? seatCount
               then ret (json 400
                           (OnlySeatsAvailable (BusDoc.availableSeats bus)
                              seatCount))
               else
                 let requestedSeats := requestedSeatsOf passengerDetails in
                 await seatAvailable <-
                   (if (0 <? length requestedSeats)%nat
                    then Booking.checkSeatAvailability env busId travelDate
                           requestedSeats
                    else ret true) ;;
                 if negb seatAvailable
                 then ret (json 400 SeatsAlreadyBooked)
                 else
                   let totalAmount :=
                     Number.mul (BusDoc.fare bus) (Number.of_Z seatCount) in
                   let bookingData :=
                     {| Booking.data_userId := user_id (create_user req);
                        Booking.data_busId := busId;
                        Booking.data_passengerDetails := passengerDetails;
                        Booking.data_travelDate := travelDate;
                        Booking.data_totalAmount := totalAmount;
                        Booking.data_seatCount := seatCount;
                        Booking.data_paymentMethod := create_paymentMethod req;
                        Booking.data_contactInfo := create_contactInfo req;
                        Booking.data_status := pending |} in
                   await booking <- Booking.create env bookingData ;;
                   await reserved <- Bus.bookSeats bus seatCount ;;
                   ret (json 201 (BookingCreated booking))
       end)
    (fun error => json 500 (ServerError "Server error while creating booking")).

Record ConfirmRequest := { confirm_id : ObjectId }.

Definition confirmBooking (env : Env) (req : ConfirmRequest)
  : Store -> Response * Store :=
  try_catch
    (await booking <- Booking.findById (confirm_id req) ;;
     match booking with
     | None => ret (json 404 BookingNotFound)
     | Some booking =>
       if negb (bool_decide (BookingDoc.status booking = pending))
       then ret (json 400 (CannotBeConfirmed (BookingDoc.status booking)))
       else
         await booking <- Booking.confirmBooking env booking ;;
         ret (json 200 (BookingConfirmed booking))
     end)
    (fun error => json 500 (ServerError "Server error while confirming booking")).

Record CancelRequest := {
  cancel_user : User;
  cancel_id : ObjectId;
  cancel_reason : option string
}.

(** [reason || 'User requested cancellation']. *)
Definition reasonOrDefault (reason : option string) : string :=
  match reason with
  | Some r => if String.eqb r "" then "User requested cancellation" else r
  | None => "User requested cancellation"
  end.

Definition cancelBooking (env : Env) (req : CancelRequest)
  : Store -> Response * Store :=
  try_catch
    (await booking <- Booking.findById (cancel_id req) ;;
     match booking with
     | None => ret (json 404 BookingNotFound)
     | Some booking =>
       if negb (bool_decide (role (cancel_user req) = admin))
          && negb (Nat.eqb (BookingDoc.userId booking)
                     (user_id (cancel_user req)))
       then ret (json 403 AccessDenied)
       else if bool_decide (BookingDoc.status booking = cancelled)
       then ret (json 400 AlreadyCancelled)
       else if bool_decide (BookingDoc.status booking = completed)
       then ret (json 400 CannotCancelCompleted)
       else
         await cancelledBooking <-
           Booking.cancelBooking env booking
             (reasonOrDefault (cancel_reason req)) ;;
         ret (json 200
                (BookingCancelled cancelledBooking
                   (BookingDoc.refundAmount cancelledBooking)
                   (if BookingDoc.refundAmount cancelledBooking >? 0
                    then "Refund will be processed"
                    else "No refund applicable")))
     end)
    (fun error =>
       if String_includes (message error) "cannot be cancelled"
       then json 400 (ErrorMessage (message error))
       else json 500 (ServerError "Server error while cancelling booking")).

End bookingController.

(** ** The bus controller: update and delete *)

(** The JSON bodies [deleteBus] answers with. *)
Inductive DeleteBody :=
| DeleteBusNotFound
| CannotDeleteBus (activeBookings : Z)
| BusDeleted
| DeleteServerError.

Record DeleteResponse := deleteJson {
  deleteStatus : Z;
  deleteBody : DeleteBody
}.

Module busController.

Record UpdateRequest := {
  update_id : ObjectId;
  update_body : Bus.Update
}.

(** The validators of [PUT /api/buses/:id] on the fields the model
    follows. *)
Definition validationResult_isEmpty (req : UpdateRequest) : bool :=
  match Bus.upd_capacity (update_body req) with
  | Some c => (1 <=? c) && (c <=? 100)
  | None => true
  end
  && match Bus.upd_availableSeats (update_body req) with
     | Some a => 0 <=? a
     | None => true
     end.

(** [updateBus] on the bodies of type [Bus.Update]; they hold no
    [busNumber], so the check that a new one is not taken does not
    apply. *)
Definition updateBus (req : UpdateRequest) : Store -> Response * Store :=
  try_catch
    (if negb (validationResult_isEmpty req)
     then ret (json 400 ValidationFailed)
     else
       await existingBus <- Bus.findById (update_id req) ;;
       match existingBus with
       | None => ret (json 404 BusNotFound)
       | Some existingBus =>
           await bus <- Bus.findByIdAndUpdate (update_id req)
                          (update_body req) ;;
           ret (json 200 (BusUpdated bus))
       end)
    (fun error => json 500 (ServerError "Server error while updating bus")).

(** The filter of the count in [deleteBus]: the bookings of the bus that
    are confirmed or pending and travel at [new Date()] or later. *)
Definition activeBooking (env : Env) (busId : ObjectId) (b : BookingDoc.t)
  : bool :=
  Nat.eqb (BookingDoc.busId b) busId
  && bool_decide (BookingDoc.status b ∈ [confirmed; pending])
  && (now env <=? BookingDoc.travelDate b).

Definition deleteBus (env : Env) (busId : ObjectId)
  : Store -> DeleteResponse * Store :=
  try_catch
    (await bus <- Bus.findById busId ;;
     match bus with
     | None => ret (deleteJson 404 DeleteBusNotFound)
     | Some bus =>
         await activeBookings <-
           Booking.countDocuments (activeBooking env busId) ;;
         if activeBookings >? 0
         then ret (deleteJson 400 (CannotDeleteBus activeBookings))
         else
           await deleted <- Bus.findByIdAndDelete busId ;;
           ret (deleteJson 200 BusDeleted)
     end)
    (fun error => deleteJson 500 DeleteServerError).

End busController.

(** ** The role middleware *)

(** What a middleware does with a request: hand it on, or answer. *)
Inductive Gate :=
| next
| denied (status : Z) (message : string).

Module roleAuth.

(** The parts of a request the middleware reads: [req.user], the field of
    [req.body] and of [req.resource] looked up by name, [req.params.id] and
    [req.params.userId].  A value that is absent or falsy is [None]. *)
Record Request := {
  req_user : option User;
  req_body : string -> option ObjectId;
  req_params_id : option ObjectId;
  req_params_userId : option ObjectId;
  req_resource : option (string -> option ObjectId)
}.

Definition roleName (r : Role) : string :=
  match r with user => "user" | admin => "admin" end.

(** [a || b] on values that are absent or an id. *)
Definition orElse (a b : option ObjectId) : option ObjectId :=
  match a with Some x => Some x | None => b end.

Definition authorize (roles : list Role) (req : Request) : Gate :=
  match req_user req with
  | None => denied 401 "Access denied. Authentication required."
  | Some u =>
      if negb (bool_decide (role u ∈ roles))
      then denied 403
             ("Access denied. Required role: "
              ++ String.concat " or " (map roleName roles)
              ++ ". Your role: " ++ roleName (role u))
      else next
  end.

Definition adminOnly (req : Request) : Gate :=
  match req_user req with
  | None => denied 401 "Access denied. Authentication required."
  | Some u =>
      if negb (bool_decide (role u = admin))
      then denied 403 "Access denied. Admin privileges required."
      else next
  end.

Definition ownerOrAdmin (resourceUserField : string) (req : Request) : Gate :=
  match req_user req with
  | None => denied 401 "Access denied. Authentication required."
  | Some u =>
      if bool_decide (role u = admin) then next
      else
        let resourceUserId :=
          orElse (req_body req resourceUserField)
            (orElse (req_params_userId req)
               (match req_resource req with
                | Some resource => resource resourceUserField
                | None => None
                end)) in
        match resourceUserId with
        | Some id =>
            if Nat.eqb id (user_id u) then next
            else denied 403
                   "Access denied. You can only access your own resources."
        | None =>
            denied 403 "Access denied. You can only access your own resources."
        end
  end.

Definition profileOwnerOrAdmin (req : Request) : Gate :=
  match req_user req with
  | None => denied 401 "Access denied. Authentication required."
  | Some u =>
      let targetUserId := orElse (req_params_id req) (req_params_userId req) in
      if bool_decide (role u = admin) then next
      else
        match targetUserId with
        | Some id =>
            if Nat.eqb id (user_id u) then next
            else denied 403
                   "Access denied. You can only modify your own profile."
        | None =>
            denied 403 "Access denied. You can only modify your own profile."
        end
  end.

End roleAuth.

(** ** The authentication middleware *)

(** [s.split(' ')]: the pieces between single spaces, empty ones kept. *)
Fixpoint split_space (s : string) : list string :=
  match s with
  | EmptyString => [EmptyString]
  | String c rest =>
      if Ascii.eqb c " "%char
      then EmptyString :: split_space rest
      else match split_space rest with
           | piece :: pieces => String c piece :: pieces
           | [] => [String c EmptyString]
           end
  end.

(** What [jwt.verify] does with a token: the decoded payload's [id], or one
    of the errors the middleware tells apart by name. *)
Inductive Verified :=
| Decoded (id : ObjectId)
| JsonWebTokenError
| TokenExpiredError
| OtherTokenError.

(** A stored user, as far as the middleware reads it. *)
Record Account := { account : User; isActive : bool }.

(** What a protecting middleware ends with: the request goes on with
    [req.user] attached, or it is answered. *)
Inductive Protected :=
| attached (u : User)
| refused (status : Z) (message : string).

Module auth.

Section Collaborators.

(** [jwt.verify(token, process.env.JWT_SECRET)]. *)
Variable verify : string -> Verified.

(** [User.findById(id).select('-password')]. *)
Variable findUser : ObjectId -> option Account.

(** The token read from the [Authorization] header, when there is one. *)
Definition bearerToken (authorization : option string) : option string :=
  match authorization with
  | Some header =>
      if negb (String.eqb header "") && String.prefix "Bearer" header
      then nth_error (split_space header) 1
      else None
  | None => None
  end.

(** [!token]. *)
Definition noToken (token : option string) : bool :=
  match token with
  | Some t => String.eqb t ""
  | None => true
  end.

Definition protect (authorization : option string) : Protected :=
  let token := bearerToken authorization in
  if noToken token
  then refused 401 "Access denied. No token provided."
  else
    match verify (default EmptyString token) with
    | Decoded id =>
        match findUser id with
        | None => refused 401 "Token is valid but user no longer exists"
        | Some u =>
            if negb (isActive u)
            then refused 401 "User account has been deactivated"
            else attached (account u)
        end
    | JsonWebTokenError => refused 401 "Invalid token"
    | TokenExpiredError => refused 401 "Token has expired"
    | OtherTokenError => refused 401 "Token verification failed"
    end.

(** [optionalAuth]: the request always goes on; the result is [req.user]. *)
Definition optionalAuth (authorization : option string) : option User :=
  let token := bearerToken authorization in
  if negb (noToken token)
  then
    match verify (default EmptyString token) with
    | Decoded id =>
        match findUser id with
        | Some u => if isActive u then Some (account u) else None
        | None => None
        end
    | _ => None
    end
  else None.

End Collaborators.

End auth.

(** ** Vocabulary of the specification *)

(** The seat-ledger invariant on one bus document, and on the store. *)
Definition ledger_ok (b : BusDoc.t) : Prop :=
  0 <= BusDoc.availableSeats b <= BusDoc.capacity b.

Definition ledger_invariant (st : Store) : Prop :=
  map_Forall (fun _ b => ledger_ok b) (buses st).

(** Every stored bus passes the validators of the schema. *)
Definition schema_invariant (st : Store) : Prop :=
  map_Forall (fun _ b => Bus.validate b = None) (buses st).

(** A computation keeps a property of the store, whether it returns or
    throws. *)
Definition preserves {A} (I : Store -> Prop) (c : M A) : Prop :=
  forall st, I st -> I (snd (c st)).

(** The operations of the subsystem that can write to the store. *)
Inductive LedgerOp :=
| BusSave (isNew : bool) (doc : BusDoc.t)
| BusCreate (data : BusDoc.t)
| ReserveSeats (bus : BusDoc.t) (seatCount : Z)
| ReleaseSeats (bus : BusDoc.t) (seatCount : Z)
| CreateBooking (env : Env) (req : bookingController.CreateRequest)
| ConfirmBooking (env : Env) (req : bookingController.ConfirmRequest)
| CancelBooking (env : Env) (req : bookingController.CancelRequest).

(** The store an operation leaves behind. *)
Definition run (op : LedgerOp) (st : Store) : Store :=
  match op with
  | BusSave isNew doc => snd (Bus.save isNew doc st)
  | BusCreate data => snd (Bus.create data st)
  | ReserveSeats bus n => snd (Bus.bookSeats bus n st)
  | ReleaseSeats bus n => snd (Bus.releaseSeats bus n st)
  | CreateBooking env req => snd (bookingController.createBooking env req st)
  | ConfirmBooking env req => snd (bookingController.confirmBooking env req st)
  | CancelBooking env req => snd (bookingController.cancelBooking env req st)
  end.





(** The document [cancelBooking] ends with: the five assignments of the
    method, with the values the code computes for them. *)
Definition cancelledDoc (env : Env) (b : BookingDoc.t) (reason : string)
  : BookingDoc.t :=
  BookingDoc.set_paymentStatus paid
    (BookingDoc.set_refundAmount 0
       (BookingDoc.set_cancellationDate (now env)
          (BookingDoc.set_cancellationReason reason
             (BookingDoc.set_status cancelled b)))).

(** The caller may cancel the booking: an admin, or its owner. *)
Definition authorised (req : bookingController.CancelRequest)
    (b : BookingDoc.t) : Prop :=
  role (bookingController.cancel_user req) = admin
  \/ BookingDoc.userId b = user_id (bookingController.cancel_user req).

(** Releasing [k] times in a row, each time on the document the previous
    release returned. *)
Fixpoint releaseRepeatedly (k : nat) (bus : BusDoc.t) (count : Z)
    (st : Store) : Outcome BusDoc.t * Store :=
  match k with
  | O => (Ok bus, st)
  | S k' =>
      match Bus.releaseSeats bus count st with
      | (Ok doc, st') => releaseRepeatedly k' doc count st'
      | (Throw e, st') => (Throw e, st')
      end
  end.

(** ** Vocabulary for flows of requests *)

(** The requests that write to the store. *)
Inductive ApiRequest :=
| PostBooking (env : Env) (req : bookingController.CreateRequest)
| PutConfirm (env : Env) (req : bookingController.ConfirmRequest)
| DeleteBooking (env : Env) (req : bookingController.CancelRequest)
| PutBus (req : busController.UpdateRequest)
| DeleteBus (env : Env) (busId : ObjectId).

(** The store a request leaves behind, and a sequence of requests leaves
    behind when each runs to completion before the next. *)
Definition handle (r : ApiRequest) (st : Store) : Store :=
  match r with
  | PostBooking env req => snd (bookingController.createBooking env req st)
  | PutConfirm env req => snd (bookingController.confirmBooking env req st)
  | DeleteBooking env req => snd (bookingController.cancelBooking env req st)
  | PutBus req => snd (busController.updateBus req st)
  | DeleteBus env busId => snd (busController.deleteBus env busId st)
  end.

Definition handleAll (rs : list ApiRequest) (st : Store) : Store :=
  foldl (fun st r => handle r st) st rs.

(** The requests other than the bus update. *)
Definition isBookingFlow (r : ApiRequest) : Prop :=
  match r with PutBus _ => False | _ => True end.

(** Documents are stored under their own [_id]. *)
Definition buses_ids_ok (st : Store) : Prop :=
  map_Forall (fun k b => BusDoc._id b = k) (buses st).

Definition bookings_ids_ok (st : Store) : Prop :=
  map_Forall (fun k b => BookingDoc._id b = k) (bookings st).

(** The fields of a booking that no handler writes after creation. *)
Definition frozen (b b' : BookingDoc.t) : Prop :=
  BookingDoc._id b' = BookingDoc._id b
  /\ BookingDoc.userId b' = BookingDoc.userId b
  /\ BookingDoc.busId b' = BookingDoc.busId b
  /\ BookingDoc.passengerDetails b' = BookingDoc.passengerDetails b
  /\ BookingDoc.bookingDate b' = BookingDoc.bookingDate b
  /\ BookingDoc.travelDate b' = BookingDoc.travelDate b
  /\ BookingDoc.totalAmount b' = BookingDoc.totalAmount b
  /\ BookingDoc.seatCount b' = BookingDoc.seatCount b
  /\ BookingDoc.paymentMethod b' = BookingDoc.paymentMethod b.

(** The moves of [status] along pending, confirmed, cancelled. *)
Definition statusReach (s s' : BookingStatus) : Prop :=
  s' = s
  \/ (s = pending /\ (s' = confirmed \/ s' = cancelled))
  \/ (s = confirmed /\ s' = cancelled).

(** The payment fields that go with each status in the handlers. *)
Definition payment_in_step (b : BookingDoc.t) : Prop :=
  BookingDoc.refundAmount b = 0
  /\ match BookingDoc.status b with
     | pending => BookingDoc.paymentStatus b = payment_pending
     | confirmed | cancelled => BookingDoc.paymentStatus b = paid
     | completed => True
     end.

Definition sumZ (l : list Z) : Z := foldr Z.add 0 l.

(** The seats a booking holds on bus [id]: its [seatCount] when it is for
    that bus and not cancelled. *)
Definition seatsHeld (id : ObjectId) (b : BookingDoc.t) : Z :=
  if Nat.eqb (BookingDoc.busId b) id
     && negb (bool_decide (BookingDoc.status b = cancelled))
  then BookingDoc.seatCount b
  else 0.

(** The seats held on bus [id] by all stored bookings. *)
Definition committed (st : Store) (id : ObjectId) : Z :=
  sumZ (map (fun kb => seatsHeld id kb.2) (map_to_list (bookings st))).

(** No bus is overbooked: the seats still available and the seats held
    fit in the capacity. *)
Definition no_overbooking (st : Store) : Prop :=
  forall id bus,
    buses st !! id = Some bus ->
    BusDoc.availableSeats bus + committed st id <= BusDoc.capacity bus.

(** The bus document a release of [n] seats stores. *)
Definition released (bus : BusDoc.t) (n : Z) : BusDoc.t :=
  Bus.pre_save false
    (BusDoc.set_availableSeats
       (Z.min (BusDoc.availableSeats bus + n) (BusDoc.capacity bus)) bus).

(** The bookings that keep [deleteBus] from deleting bus [id]. *)
Definition blocksDelete (env : Env) (id : ObjectId) (b : BookingDoc.t)
  : Prop :=
  BookingDoc.busId b = id
  /\ (BookingDoc.status b = pending \/ BookingDoc.status b = confirmed)
  /\ now env <= BookingDoc.travelDate b.

#[global] Instance blocksDelete_dec (env : Env) (id : ObjectId)
    (b : BookingDoc.t) : Decision (blocksDelete env id b).
Proof. unfold blocksDelete. apply _. Defined.

(** The number of stored bookings that keep [deleteBus] from deleting bus
    [id]. *)
Definition activeCount (env : Env) (id : ObjectId) (st : Store) : Z :=
  Z.of_nat
    (length
       (List.filter (fun b => bool_decide (blocksDelete env id b))
          (map snd (map_to_list (bookings st))))).

(** Every stored booking passed the validators of the schema at some
    instant, as a document written through the model has. *)
Definition bookings_valid (st : Store) : Prop :=
  map_Forall (fun _ b => exists env, Booking.validate env b = None)
    (bookings st).

(** The clock a request reads, when it reads one. *)
Definition clock (r : ApiRequest) : option Z :=
  match r with
  | PostBooking env _ | PutConfirm env _ | DeleteBooking env _
  | DeleteBus env _ => Some (now env)
  | PutBus _ => None
  end.

(** The requests of a sequence read clocks that do not run backwards,
    starting at [t]. *)
Fixpoint inOrder (t : Z) (rs : list ApiRequest) : Prop :=
  match rs with
  | [] => True
  | r :: rest =>
      match clock r with
      | Some t' => t <= t' /\ inOrder t' rest
      | None => inOrder t rest
      end
  end.

(** The last clock a sequence reads. *)
Fixpoint lastClock (t : Z) (rs : list ApiRequest) : Z :=
  match rs with
  | [] => t
  | r :: rest => lastClock (default t (clock r)) rest
  end.

(** Every booking that is pending or confirmed and travels at [t] or later
    names a stored bus. *)
Definition served (t : Z) (st : Store) : Prop :=
  forall k b,
    bookings st !! k = Some b ->
    BookingDoc.status b = pending \/ BookingDoc.status b = confirmed ->
    t <= BookingDoc.travelDate b ->
    exists bus, buses st !! BookingDoc.busId b = Some bus.

(** The value of a number as a rational, for a finite one. *)
Definition exactValue (x : Number.t) : Q :=
  match x with
  | S754_finite s m e =>
      (inject_Z (if s then Z.neg m else Z.pos m) * Qpower 2 e)%Q
  | _ => 0%Q
  end.

(** The status a gate answers with; none when the request goes on. *)
Definition gateStatus (g : Gate) : option Z :=
  match g with
  | next => None
  | denied status _ => Some status
  end.

(** A gate that answers 401 exactly to requests without [req.user], and
    403 whenever it denies a request that has one. *)
Definition needsUser (gate : roleAuth.Request -> Gate)
    (req : roleAuth.Request) : Prop :=
  (gateStatus (gate req) = Some 401 <-> roleAuth.req_user req = None)
  /\ (gateStatus (gate req) = None
      \/ gateStatus (gate req) = Some 401
      \/ gateStatus (gate req) = Some 403).

(** A string without a space. *)
Definition spaceFree (s : string) : bool :=
  forallb (fun c => negb (Ascii.eqb c " "%char)) (list_ascii_of_string s).

(** ** Sample data *)

Module Sample.

(** A server in UTC, five hours into day 1000 after the epoch. *)
Definition env : Env := {| now := 1000 * msPerDay + 5 * msPerHour; tz := 0 |}.

Definition everyDay : list Weekday :=
  [Sunday; Monday; Tuesday; Wednesday; Thursday; Friday; Saturday].

Definition passenger (seat : string) : Passenger :=
  {| name := "John Doe"; age := 30; gender := male; seatNumber := seat |}.

(** Bus 1: 40 seats, [free] of them available, fare 50. *)
Definition bus (free : Z) : BusDoc.t :=
  BusDoc.mk 1 40 free (Number.of_Z 50) everyDay active.

(** Bus 1 after its capacity was lowered to one seat while two were
    available. *)
Definition shrunkBus : BusDoc.t :=
  BusDoc.mk 1 1 2 (Number.of_Z 50) everyDay active.

Definition john : User := {| user_id := 7; role := user |}.

Definition contact : ContactInfo :=
  {| phone := "9876543210"; email := "john.doe@example.com" |}.

(** Booking 0 of John on bus 1 for two seats, total 100, made now and
    travelling [hours] hours from now. *)
Definition booking (s : BookingStatus) (hours : Z) : BookingDoc.t :=
  BookingDoc.mk 0 7 1 [passenger "A1"; passenger "A2"] (Some (now env))
    (now env + hours * msPerHour) (Number.of_Z 100) 2 s
    (match s with pending => payment_pending | _ => paid end)
    card None None 0 contact.

(** Booking 0 of John on bus 1 for one seat, confirmed, travelling 30
    hours from now. *)
Definition singleBooking : BookingDoc.t :=
  BookingDoc.mk 0 7 1 [passenger "A1"] (Some (now env))
    (now env + 30 * msPerHour) (Number.of_Z 50) 1 confirmed paid
    card None None 0 contact.

(** A confirmed booking whose total is the number written
    3.333333333333333, travelling 30 hours from now. *)
Definition oddAmountBooking : BookingDoc.t :=
  BookingDoc.mk 0 7 1 [passenger "A1"] (Some (now env))
    (now env + 30 * msPerHour) (S754_finite false 7505999378950826 (-51))
    1 confirmed paid card None None 0 contact.

(** The confirmed booking of one seat with a contact address that the
    pattern of the schema does not accept. *)
Definition oddContactBooking : BookingDoc.t :=
  BookingDoc.mk 0 7 1 [passenger "A1"] (Some (now env))
    (now env + 30 * msPerHour) (Number.of_Z 50) 1 confirmed paid
    card None None 0
    {| phone := "9876543210"; email := "john.doe@example.travel" |}.

(** Booking 0 of John on bus 1 for two seats, made three days ago for a
    journey 30 hours ago, and still pending. *)
Definition overdueBooking : BookingDoc.t :=
  BookingDoc.mk 0 7 1 [passenger "A1"; passenger "A2"]
    (Some (now env - 72 * msPerHour)) (now env - 30 * msPerHour)
    (Number.of_Z 100) 2 pending payment_pending card None None 0 contact.

(** A store with bus 1 and no booking. *)
Definition emptyStore (free : Z) : Store :=
  mkStore {[ 1%nat := bus free ]} ∅.

(** A store with bus 1 and booking 0. *)
Definition store (free : Z) (s : BookingStatus) (hours : Z) : Store :=
  mkStore {[ 1%nat := bus free ]} {[ 0%nat := booking s hours ]}.


(** Bus 1 and the overdue booking. *)
Definition overdueStore : Store :=
  mkStore {[ 1%nat := bus 38 ]} {[ 0%nat := overdueBooking ]}.

(** The shrunk bus and the booking of one seat. *)
Definition shrunkStore : Store :=
  mkStore {[ 1%nat := shrunkBus ]} {[ 0%nat := singleBooking ]}.

(** Bus 1 with 39 seats available and the booking with the odd contact
    address. *)
Definition oddContactStore : Store :=
  mkStore {[ 1%nat := bus 39 ]} {[ 0%nat := oddContactBooking ]}.

(** John asks for the given seats on bus 1, two days ahead. *)
Definition createRequest (seats : list string)
  : bookingController.CreateRequest :=
  {| bookingController.create_user := john;
     bookingController.create_busId := 1;
     bookingController.create_passengerDetails := map passenger seats;
     bookingController.create_travelDate := 1002 * msPerDay;
     bookingController.create_paymentMethod := card;
     bookingController.create_contactInfo := contact |}.

Definition confirmRequest : bookingController.ConfirmRequest :=
  {| bookingController.confirm_id := 0 |}.

Definition cancelRequest : bookingController.CancelRequest :=
  {| bookingController.cancel_user := john;
     bookingController.cancel_id := 0;
     bookingController.cancel_reason := None |}.

(** An admin lowers the capacity of bus 1 to a single seat. *)
Definition shrinkRequest : busController.UpdateRequest :=
  {| busController.update_id := 1;
     busController.update_body :=
       {| Bus.upd_capacity := Some 1;
          Bus.upd_availableSeats := None;
          Bus.upd_status := None |} |}.

(** Four requests in a row: a request for two seats, the confirmation of
    booking 0, its cancellation, and the admin's update of bus 1. *)
Definition flow : list ApiRequest :=
  [PostBooking env (createRequest ["A1"; "A2"]%string);
   PutConfirm env confirmRequest;
   DeleteBooking env cancelRequest;
   PutBus shrinkRequest].

(** A delete request for bus 1 now, then a cancel request for booking 0
    an hour later. *)
Definition deleteThenCancel : list ApiRequest :=
  [DeleteBus env 1;
   DeleteBooking {| now := now env + msPerHour; tz := 0 |} cancelRequest].

(** A request for two seats and the confirmation of booking 0. *)
Definition bookingFlow : list ApiRequest :=
  [PostBooking env (createRequest ["B1"; "B2"]%string);
   PutConfirm env confirmRequest].

End Sample.

(** ** Properties of the Bus model *)

Lemma validate_None (b : BusDoc.t) :
  Bus.validate b = None <->
  1 <= BusDoc.capacity b <= 100 /\ 0 <= BusDoc.availableSeats b.
Proof.
  unfold Bus.validate, Bus.capacityError, Bus.availableSeatsError.
  destruct (Z.ltb_spec (BusDoc.capacity b) 1);
    [split; [discriminate | lia] |].
  destruct (Z.ltb_spec 100 (BusDoc.capacity b));
    [split; [discriminate | lia] |].
  destruct (Z.ltb_spec (BusDoc.availableSeats b) 0);
    [split; [discriminate | lia] |].
  split; [lia | reflexivity].
Qed.

Lemma pre_save_fields (isNew : bool) (b : BusDoc.t) :
  BusDoc._id (Bus.pre_save isNew b) = BusDoc._id b
  /\ BusDoc.capacity (Bus.pre_save isNew b) = BusDoc.capacity b.
Proof.
  unfold Bus.pre_save.
  destruct (isNew && _); simpl;
    match goal with |- context [if ?c then _ else _] => destruct c end;
    simpl; auto.
Qed.

(** What the hook stores for a document that passed validation. *)
Lemma pre_save_ledger_ok (isNew : bool) (b : BusDoc.t) :
  Bus.validate b = None -> ledger_ok (Bus.pre_save isNew b).
Proof.
  intros Hv. apply validate_None in Hv as [Hc Ha].
  unfold ledger_ok, Bus.pre_save.
  destruct (isNew && _); simpl.
  - rewrite Z.gtb_ltb, Z.ltb_irrefl. simpl. lia.
  - destruct (Z.gtb_spec (BusDoc.availableSeats b) (BusDoc.capacity b));
      simpl; lia.
Qed.

(** The hook leaves a loaded document alone when the ledger is in range. *)
Lemma pre_save_loaded_id (b : BusDoc.t) :
  BusDoc.availableSeats b <= BusDoc.capacity b -> Bus.pre_save false b = b.
Proof.
  intros H. unfold Bus.pre_save. simpl.
  destruct (Z.gtb_spec (BusDoc.availableSeats b) (BusDoc.capacity b));
    [lia | reflexivity].
Qed.

Lemma save_cases (isNew : bool) (b : BusDoc.t) (st : Store) :
  (exists msg, Bus.validate b = Some msg
     /\ Bus.save isNew b st = (Throw (ValidationError msg), st))
  \/ (Bus.validate b = None
      /\ Bus.save isNew b st =
           (Ok (Bus.pre_save isNew b),
            set_buses (<[BusDoc._id (Bus.pre_save isNew b) :=
                           Bus.pre_save isNew b]> (buses st)) st)).
Proof.
  unfold Bus.save. destruct (Bus.validate b) as [msg|].
  - left. exists msg. auto.
  - right. auto.
Qed.

Lemma save_preserves_ledger (isNew : bool) (b : BusDoc.t) :
  preserves ledger_invariant (Bus.save isNew b).
Proof.
  intros st Hst.
  destruct (save_cases isNew b st) as [(msg & _ & ->) | (Hv & ->)]; simpl.
  - exact Hst.
  - unfold ledger_invariant. simpl.
    apply map_Forall_insert_2; [| exact Hst].
    apply pre_save_ledger_ok, Hv.
Qed.

(** What the hook does to a loaded document: the ledger is cut down to the
    capacity. *)
Lemma pre_save_loaded_min (b : BusDoc.t) :
  Bus.pre_save false b =
    BusDoc.set_availableSeats
      (Z.min (BusDoc.availableSeats b) (BusDoc.capacity b)) b.
Proof.
  unfold Bus.pre_save. simpl.
  destruct (Z.gtb_spec (BusDoc.availableSeats b) (BusDoc.capacity b)).
  - rewrite Z.min_r by lia. reflexivity.
  - rewrite Z.min_l by lia. destruct b. reflexivity.
Qed.

(** Reserving on any loaded document that passes validation: the exact
    outcome. *)
Lemma bookSeats_stores (st : Store) (bus : BusDoc.t) (n : Z) :
  Bus.validate bus = None ->
  n <= BusDoc.availableSeats bus ->
  let doc :=
    BusDoc.set_availableSeats
      (Z.min (BusDoc.availableSeats bus - n) (BusDoc.capacity bus)) bus in
  Bus.bookSeats bus n st =
    (Ok doc, set_buses (<[BusDoc._id bus := doc]> (buses st)) st).
Proof.
  intros Hv Hn doc. apply validate_None in Hv as [Hc Ha].
  unfold Bus.bookSeats.
  destruct (Z.geb_spec (BusDoc.availableSeats bus) n); [| lia].
  destruct (save_cases false
              (BusDoc.set_availableSeats (BusDoc.availableSeats bus - n) bus)
              st) as [(msg & Hbad & _) | (_ & ->)].
  - assert (Bus.validate
              (BusDoc.set_availableSeats (BusDoc.availableSeats bus - n) bus)
            = None) as Hok by (apply validate_None; simpl; lia).
    congruence.
  - rewrite pre_save_loaded_min. reflexivity.
Qed.

Lemma bookSeats_insufficient (st : Store) (bus : BusDoc.t) (n : Z) :
  BusDoc.availableSeats bus < n ->
  Bus.bookSeats bus n st = (Throw (Error "Not enough available seats"), st).
Proof.
  intros H. unfold Bus.bookSeats.
  destruct (Z.geb_spec (BusDoc.availableSeats bus) n); [lia | reflexivity].
Qed.

(** Releasing on a loaded document that passes validation. *)
Lemma releaseSeats_ok (st : Store) (bus : BusDoc.t) (n : Z) :
  Bus.validate bus = None ->
  0 <= n ->
  let doc :=
    BusDoc.set_availableSeats
      (Z.min (BusDoc.availableSeats bus + n) (BusDoc.capacity bus)) bus in
  Bus.releaseSeats bus n st =
    (Ok doc, set_buses (<[BusDoc._id bus := doc]> (buses st)) st).
Proof.
  intros Hv Hn doc. apply validate_None in Hv as [Hc Ha].
  unfold Bus.releaseSeats. fold doc.
  destruct (save_cases false doc st) as [(msg & Hbad & _) | (_ & ->)].
  - assert (Bus.validate doc = None) as Hok
      by (apply validate_None; subst doc; simpl; lia).
    congruence.
  - rewrite pre_save_loaded_id by (subst doc; simpl; lia).
    reflexivity.
Qed.

(** ** Writing a booking *)

Lemma booking_save_cases (env : Env) (isNew : bool) (b : BookingDoc.t)
    (st : Store) :
  (exists msg, Booking.validate env b = Some msg
     /\ Booking.save env isNew b st = (Throw (ValidationError msg), st))
  \/ (Booking.validate env b = None
      /\ Booking.save env isNew b st =
           (Ok (Booking.pre_save env isNew b),
            set_bookings
              (<[BookingDoc._id (Booking.pre_save env isNew b) :=
                   Booking.pre_save env isNew b]> (bookings st)) st)).
Proof.
  unfold Booking.save. destruct (Booking.validate env b) as [msg |].
  - left. exists msg. auto.
  - right. auto.
Qed.

Lemma orError_None (a b : option string) :
  orError a b = None <-> a = None /\ b = None.
Proof. destruct a; simpl; split; [discriminate | intros [? ?]; congruence | auto | tauto]. Qed.

(** A document without [bookingDate] does not pass validation. *)
Lemma validate_needs_bookingDate (env : Env) (b : BookingDoc.t) :
  BookingDoc.bookingDate b = None -> Booking.validate env b <> None.
Proof.
  intros Hdate Hv. unfold Booking.validate in Hv.
  apply orError_None in Hv as [_ Hv].
  apply orError_None in Hv as [Hv _].
  rewrite Hdate in Hv. discriminate.
Qed.

(** [Booking.create] on the data of the controller: the new document has
    no [bookingDate] when it is validated, so the call throws a validation
    error and nothing is stored. *)
Lemma create_throws (env : Env) (d : Booking.Data) (st : Store) :
  exists msg,
    Booking.create env d st = (Throw (ValidationError msg), st).
Proof.
  unfold Booking.create.
  match goal with
  | |- context [Booking.save env true ?doc st] =>
      destruct (booking_save_cases env true doc st)
        as [(msg & _ & ->) | (Hv & _)]
  end.
  - exists msg. reflexivity.
  - exfalso. revert Hv. apply validate_needs_bookingDate. reflexivity.
Qed.

(** ** Keeping a store property through the monad *)

Section Preserves.
Context (I : Store -> Prop).

Lemma preserves_ret {A} (a : A) : preserves I (ret a).
Proof. intros st H. exact H. Qed.

Lemma preserves_throw {A} (e : Exn) : preserves I (@throw A e).
Proof. intros st H. exact H. Qed.

Lemma preserves_bind {A B} (c : M A) (k : A -> M B) :
  preserves I c -> (forall a, preserves I (k a)) -> preserves I (bind c k).
Proof.
  intros Hc Hk st H. unfold bind.
  specialize (Hc st H). destruct (c st) as [[a | e] st']; simpl in *.
  - apply Hk, Hc.
  - exact Hc.
Qed.

Lemma preserves_try_catch {A} (c : M A) (h : Exn -> A) (st : Store) :
  preserves I c -> I st -> I (snd (try_catch c h st)).
Proof.
  intros Hc H. unfold try_catch.
  specialize (Hc st H). destruct (c st) as [[a | e] st']; exact Hc.
Qed.

Lemma preserves_read {A} (f : Store -> A) :
  preserves I (fun st => (Ok (f st), st)).
Proof. intros st H. exact H. Qed.

(** From here on [I] is a property of the bus collection that every bus
    write through [Bus.save] keeps. *)
Hypothesis I_bus_save : forall isNew b, preserves I (Bus.save isNew b).
Hypothesis I_bookings : forall m st, I st -> I (set_bookings m st).

Lemma bookSeats_preserves (bus : BusDoc.t) (n : Z) :
  preserves I (Bus.bookSeats bus n).
Proof.
  unfold Bus.bookSeats.
  destruct (BusDoc.availableSeats bus >=? n);
    [apply I_bus_save | apply preserves_throw].
Qed.

Lemma releaseSeats_preserves (bus : BusDoc.t) (n : Z) :
  preserves I (Bus.releaseSeats bus n).
Proof. unfold Bus.releaseSeats. apply I_bus_save. Qed.

Lemma booking_save_preserves (env : Env) (isNew : bool) (b : BookingDoc.t) :
  preserves I (Booking.save env isNew b).
Proof.
  intros st H.
  destruct (booking_save_cases env isNew b st)
    as [(msg & _ & ->) | (_ & ->)]; simpl.
  - exact H.
  - apply I_bookings, H.
Qed.

Lemma booking_create_preserves (env : Env) (d : Booking.Data) :
  preserves I (Booking.create env d).
Proof.
  intros st H. destruct (create_throws env d st) as [msg ->]. exact H.
Qed.

Lemma checkSeatAvailability_preserves (env : Env) (bus : ObjectId)
    (date : Z) (seats : list string) :
  preserves I (Booking.checkSeatAvailability env bus date seats).
Proof. intros st H. exact H. Qed.

Lemma booking_cancel_preserves (env : Env) (b : BookingDoc.t)
    (reason : string) :
  preserves I (Booking.cancelBooking env b reason).
Proof.
  unfold Booking.cancelBooking.
  destruct (negb _); [apply preserves_throw |].
  apply preserves_bind; [apply (preserves_read (fun st => buses st !! _)) |].
  intros [bus |]; apply preserves_bind;
    try (intros ?; apply booking_save_preserves).
  - apply preserves_bind; [apply releaseSeats_preserves |].
    intros ?. apply preserves_ret.
  - apply preserves_ret.
Qed.

Ltac skip_guards :=
  repeat (match goal with
          | |- preserves _ (if ?c then _ else _) =>
              destruct c; [apply preserves_ret |]
          end).

Lemma createBooking_preserves (env : Env)
    (req : bookingController.CreateRequest) (st : Store) :
  I st -> I (snd (bookingController.createBooking env req st)).
Proof.
  unfold bookingController.createBooking.
  apply preserves_try_catch.
  destruct (negb _); [apply preserves_ret |].
  apply preserves_bind; [apply (preserves_read (fun st => buses st !! _)) |].
  intros [bus |]; [| apply preserves_ret].
  skip_guards.
  apply preserves_bind.
  { destruct (_ <? _)%nat;
      [apply checkSeatAvailability_preserves | apply preserves_ret]. }
  intros ok. destruct (negb ok); [apply preserves_ret |].
  apply preserves_bind; [apply booking_create_preserves |].
  intros booking. apply preserves_bind; [apply bookSeats_preserves |].
  intros ?. apply preserves_ret.
Qed.

Lemma confirmBooking_preserves (env : Env)
    (req : bookingController.ConfirmRequest) (st : Store) :
  I st -> I (snd (bookingController.confirmBooking env req st)).
Proof.
  unfold bookingController.confirmBooking.
  apply preserves_try_catch.
  apply preserves_bind;
    [apply (preserves_read (fun st => bookings st !! _)) |].
  intros [b |]; [| apply preserves_ret].
  destruct (negb _); [apply preserves_ret |].
  apply preserves_bind; [apply booking_save_preserves |].
  intros ?. apply preserves_ret.
Qed.

Lemma cancelBooking_preserves (env : Env)
    (req : bookingController.CancelRequest) (st : Store) :
  I st -> I (snd (bookingController.cancelBooking env req st)).
Proof.
  unfold bookingController.cancelBooking.
  apply preserves_try_catch.
  apply preserves_bind;
    [apply (preserves_read (fun st => bookings st !! _)) |].
  intros [b |]; [| apply preserves_ret].
  skip_guards.
  apply preserves_bind; [apply booking_cancel_preserves |].
  intros ?. apply preserves_ret.
Qed.

(** Every operation of the subsystem keeps [I]. *)
Lemma run_preserves (op : LedgerOp) (st : Store) : I st -> I (run op st).
Proof.
  intros H. destruct op; simpl.
  - apply I_bus_save, H.
  - unfold Bus.create. apply I_bus_save, H.
  - apply bookSeats_preserves, H.
  - apply releaseSeats_preserves, H.
  - apply createBooking_preserves, H.
  - apply confirmBooking_preserves, H.
  - apply cancelBooking_preserves, H.
Qed.
End Preserves.

(** Stored buses pass the schema validators, and stay so: every write goes
    through the validators, the update of the bus controller included. *)
Lemma save_preserves_schema (isNew : bool) (b : BusDoc.t) :
  preserves schema_invariant (Bus.save isNew b).
Proof.
  intros st Hst.
  destruct (save_cases isNew b st) as [(msg & _ & ->) | (Hv & ->)]; simpl.
  - exact Hst.
  - unfold schema_invariant. simpl.
    apply map_Forall_insert_2; [| exact Hst].
    pose proof (pre_save_ledger_ok isNew b Hv) as [Hlo Hhi].
    destruct (pre_save_fields isNew b) as [_ Hcap].
    apply validate_None in Hv as [Hc Ha].
    apply validate_None. rewrite Hcap. lia.
Qed.

Lemma schema_invariant_after_every_operation (op : LedgerOp) (st : Store) :
  schema_invariant st -> schema_invariant (run op st).
Proof.
  apply run_preserves; [apply save_preserves_schema |].
  intros m st0 H. exact H.
Qed.

Lemma validateUpdate_None (u : Bus.Update) (b : BusDoc.t) :
  Bus.validateUpdate u = None ->
  Bus.validate b = None ->
  Bus.validate (Bus.applyUpdate u b) = None.
Proof.
  unfold Bus.validateUpdate, Bus.validate, Bus.applyUpdate. simpl.
  destruct (Bus.upd_capacity u) as [c |],
           (Bus.upd_availableSeats u) as [a |]; simpl;
    repeat (match goal with
            | |- context [match ?x with Some _ => _ | None => _ end] =>
                destruct x eqn:?
            end; try discriminate; try reflexivity);
    congruence.
Qed.

Lemma updateBus_preserves_schema (req : busController.UpdateRequest)
    (st : Store) :
  schema_invariant st ->
  schema_invariant (snd (busController.updateBus req st)).
Proof.
  intros Hst. unfold busController.updateBus, try_catch, bind, ret,
    Bus.findById, Bus.findByIdAndUpdate.
  destruct (negb _); [exact Hst |].
  destruct (buses st !! busController.update_id req) as [b |] eqn:Hb;
    [| exact Hst].
  destruct (Bus.validateUpdate (busController.update_body req)) eqn:Hu;
    [exact Hst |].
  rewrite Hb. simpl. unfold schema_invariant. simpl.
  apply map_Forall_insert_2; [| exact Hst].
  apply validateUpdate_None; [exact Hu |]. exact (Hst _ _ Hb).
Qed.

(** C2.  Whatever operation of the subsystem runs (a bus save or create, a
    seat reservation, a seat release, a booking creation, confirmation or
    cancellation), if every stored bus satisfied
    [0 <= availableSeats <= capacity] before, every stored bus satisfies it
    afterwards. *)
Theorem ledger_invariant_after_every_operation (op : LedgerOp) (st : Store) :
  ledger_invariant st -> ledger_invariant (run op st).
Proof.
  apply run_preserves; [apply save_preserves_ledger |].
  intros m st0 H. exact H.
Qed.

(** A bus write that goes through stores a document whose ledger is in
    range, whatever was stored before. *)
Lemma save_establishes_ledger (isNew : bool) (b doc : BusDoc.t)
    (st st' : Store) :
  Bus.save isNew b st = (Ok doc, st') ->
  ledger_ok doc /\ buses st' !! BusDoc._id doc = Some doc.
Proof.
  destruct (save_cases isNew b st) as [(msg & _ & ->) | (Hv & ->)];
    [discriminate |].
  intros [= <- <-]. split; [apply pre_save_ledger_ok, Hv |].
  simpl. apply lookup_insert_eq.
Qed.

(** The bus controller's update is not one of the operations above: it
    writes the fields it is given without the save hook, and can leave a
    bus with more available seats than capacity. *)
Remark updateBus_can_break_ledger :
  ledger_invariant (Sample.emptyStore 2)
  /\ ~ ledger_invariant
         (snd (busController.updateBus Sample.shrinkRequest
                 (Sample.emptyStore 2))).
Proof.
  split.
  - unfold ledger_invariant, Sample.emptyStore. simpl.
    apply map_Forall_singleton. unfold ledger_ok. simpl. lia.
  - intros H.
    assert (buses (snd (busController.updateBus Sample.shrinkRequest
                          (Sample.emptyStore 2))) !! 1%nat
            = Some Sample.shrunkBus) as Hl
      by (vm_compute; reflexivity).
    apply (H _ _) in Hl. unfold ledger_ok in Hl. simpl in Hl. lia.
Qed.

(** ** Seat-ledger reserve and release *)

(** C3 (amended).  Reserve on a bus document that passes validation, for
    every [count <= availableSeats]: the call succeeds, and the document it
    returns and stores under the bus's [_id] has [availableSeats] equal to
    [min (availableSeats - count) capacity] and nothing else changed.  So
    [availableSeats] is lowered by exactly [count] whenever the result does
    not exceed the capacity, as on every bus whose ledger is in range, and
    is cut down to the capacity otherwise.  When [availableSeats < count]
    (for any document) the call throws 'Not enough available seats' and the
    store is left as it was. *)
Theorem bookSeats_reserve (st : Store) (bus : BusDoc.t) (count : Z) :
  (Bus.validate bus = None ->
   count <= BusDoc.availableSeats bus ->
   exists doc,
     Bus.bookSeats bus count st =
       (Ok doc, set_buses (<[BusDoc._id bus := doc]> (buses st)) st)
     /\ BusDoc.availableSeats doc
        = Z.min (BusDoc.availableSeats bus - count) (BusDoc.capacity bus)
     /\ (BusDoc.availableSeats bus - count <= BusDoc.capacity bus ->
         BusDoc.availableSeats doc = BusDoc.availableSeats bus - count)
     /\ doc = BusDoc.set_availableSeats (BusDoc.availableSeats doc) bus)
  /\ (BusDoc.availableSeats bus < count ->
      Bus.bookSeats bus count st =
        (Throw (Error "Not enough available seats"), st)).
Proof.
  split.
  - intros Hv Hn. eexists. split; [apply bookSeats_stores; assumption |].
    simpl. split; [reflexivity |]. split; [lia | reflexivity].
  - apply bookSeats_insufficient.
Qed.

(** C3, as stated, fails on a bus with more available seats than capacity,
    which the bus update can store: bus 1 with capacity 40 and 50 available
    seats passes validation and has 3 seats available, yet reserving 3
    stores 40, not 47, because the save hook cuts the ledger down to the
    capacity. *)
Lemma bookSeats_reserve_counterexample :
  Bus.validate (Sample.bus 50) = None
  /\ 3 <= BusDoc.availableSeats (Sample.bus 50)
  /\ exists doc,
       Bus.bookSeats (Sample.bus 50) 3 (Sample.emptyStore 50)
         = (Ok doc,
            set_buses (<[1%nat := doc]> (buses (Sample.emptyStore 50)))
              (Sample.emptyStore 50))
       /\ BusDoc.availableSeats doc = 40
       /\ BusDoc.availableSeats doc
            <> BusDoc.availableSeats (Sample.bus 50) - 3.
Proof.
  split; [reflexivity |]. split; [vm_compute; discriminate |].
  eexists. split; [vm_compute; reflexivity |].
  split; [reflexivity | vm_compute; discriminate].
Qed.

(** C4.  Release on a bus document that passes validation, for a count
    [>= 0]: the call succeeds (it does not throw), the document it returns
    and stores has [availableSeats = min (availableSeats + count) capacity],
    which is at most [capacity], and that document passes validation again,
    so releasing can be repeated with the same guarantees. *)
Theorem releaseSeats_clamps (st : Store) (bus : BusDoc.t) (count : Z) :
  Bus.validate bus = None ->
  0 <= count ->
  exists doc,
    Bus.releaseSeats bus count st =
      (Ok doc, set_buses (<[BusDoc._id bus := doc]> (buses st)) st)
    /\ BusDoc.availableSeats doc =
         Z.min (BusDoc.availableSeats bus + count) (BusDoc.capacity bus)
    /\ BusDoc.capacity doc = BusDoc.capacity bus
    /\ BusDoc.availableSeats doc <= BusDoc.capacity doc
    /\ Bus.validate doc = None.
Proof.
  intros Hv Hn. eexists. split; [apply releaseSeats_ok; assumption |].
  simpl. repeat split; try lia.
  apply validate_None in Hv as [Hc Ha].
  apply validate_None. simpl. lia.
Qed.

(** However often seats are released, the call succeeds and the ledger
    stays at or below capacity. *)
Lemma releaseRepeatedly_bounded (k : nat) :
  forall (bus : BusDoc.t) (count : Z) (st : Store),
    Bus.validate bus = None ->
    BusDoc.availableSeats bus <= BusDoc.capacity bus ->
    0 <= count ->
    exists doc st',
      releaseRepeatedly k bus count st = (Ok doc, st')
      /\ BusDoc.availableSeats doc <= BusDoc.capacity doc.
Proof.
  induction k as [| k IH]; intros bus count st Hv Hcap Hn; simpl.
  - eauto.
  - rewrite releaseSeats_ok by assumption.
    apply IH; [| simpl; lia | assumption].
    apply validate_None in Hv as [Hc Ha].
    apply validate_None. simpl. lia.
Qed.

(** ** The refund policy *)

Lemma Qgtb_true (x y : Q) : Qgtb x y = true <-> (y < x)%Q.
Proof.
  unfold Qgtb. rewrite negb_true_iff, <- not_true_iff_false, Qle_bool_iff.
  split; [apply Qnot_le_lt | apply Qlt_not_le].
Qed.

(** The comparison on hours, read on the millisecond difference. *)
Lemma hours_gt (env : Env) (b : BookingDoc.t) (h : Z) :
  Qgtb (Booking.hoursUntilTravel env b) (h # 1) = true <->
  h * msPerHour < BookingDoc.travelDate b - now env.
Proof.
  rewrite Qgtb_true. unfold Booking.hoursUntilTravel, Qlt, Qdiv, Qmult, Qinv.
  unfold msPerHour. simpl. lia.
Qed.

Lemma canCancel_iff (env : Env) (b : BookingDoc.t) :
  Booking.canCancel env b = true <->
  BookingDoc.status b = confirmed
  /\ 2 * msPerHour < BookingDoc.travelDate b - now env.
Proof.
  unfold Booking.canCancel. rewrite <- (hours_gt env b 2).
  destruct (decide (BookingDoc.status b = confirmed)) as [Hs | Hs].
  - rewrite (bool_decide_eq_true_2 _ Hs). simpl. tauto.
  - rewrite (bool_decide_eq_false_2 _ Hs). simpl.
    split; [discriminate | tauto].
Qed.

(** C5 (amended).  The refund policy at one instant [now]: [canCancel]
    holds exactly when the status is confirmed and more than 2 hours remain
    before the travel date, so never for a pending booking; when it does
    not hold the refund is 0; when it holds and more than 24 hours remain
    the refund is the floor of the binary64 product of [totalAmount] and
    the number [0.9]; when it holds and at most 24 hours remain the refund
    is the floor of the binary64 product of [totalAmount] and [0.5]. *)
Theorem refund_policy (env : Env) (b : BookingDoc.t) :
  (Booking.canCancel env b = true <->
     BookingDoc.status b = confirmed
     /\ 2 * msPerHour < BookingDoc.travelDate b - now env)
  /\ (BookingDoc.status b = pending -> Booking.canCancel env b = false)
  /\ (Booking.canCancel env b = false ->
      Booking.eligibleRefundAmount env b = 0)
  /\ (Booking.canCancel env b = true ->
      24 * msPerHour < BookingDoc.travelDate b - now env ->
      Booking.eligibleRefundAmount env b
        = Number.floor
            (Number.mul (BookingDoc.totalAmount b) Number.nine_tenths))
  /\ (Booking.canCancel env b = true ->
      BookingDoc.travelDate b - now env <= 24 * msPerHour ->
      Booking.eligibleRefundAmount env b
        = Number.floor (Number.mul (BookingDoc.totalAmount b) Number.half)).
Proof.
  split; [apply canCancel_iff |].
  split.
  { intros Hs. apply not_true_iff_false. rewrite canCancel_iff.
    intros [Hc _]. congruence. }
  unfold Booking.eligibleRefundAmount.
  split; [intros ->; reflexivity |].
  split; intros Hc Ht; rewrite Hc; simpl.
  - apply (hours_gt env b 24) in Ht. rewrite Ht. reflexivity.
  - assert (Qgtb (Booking.hoursUntilTravel env b) 24 = false) as ->.
    { apply not_true_iff_false. rewrite (hours_gt env b 24). lia. }
    apply canCancel_iff in Hc as [_ Hc].
    apply (hours_gt env b 2) in Hc. rewrite Hc. reflexivity.
Qed.

(** C5, as stated, fails on an amount whose product with 0.9 is rounded
    up to an integer: for a confirmed booking travelling 30 hours from now
    whose total is the number written 3.333333333333333, the code answers
    3, while the floor of nine tenths of that amount is 2. *)
Lemma refund_policy_counterexample :
  Booking.canCancel Sample.env Sample.oddAmountBooking = true
  /\ 24 * msPerHour
       < BookingDoc.travelDate Sample.oddAmountBooking - now Sample.env
  /\ Number.finite (BookingDoc.totalAmount Sample.oddAmountBooking) = true
  /\ Booking.eligibleRefundAmount Sample.env Sample.oddAmountBooking = 3
  /\ Qfloor
       (exactValue (BookingDoc.totalAmount Sample.oddAmountBooking) * (9 # 10))
     = 2.
Proof. repeat split; vm_compute; reflexivity. Qed.

(** ** Confirm and cancel *)

Lemma startOfDay_le (env : Env) (d : Z) : startOfDay env d <= d.
Proof.
  unfold startOfDay, msPerDay, msPerHour.
  Z.to_euclidean_division_equations. lia.
Qed.

(** Validation does not read the status, the payment status, the reason
    or the date of a cancellation. *)
Lemma validate_confirmed (env : Env) (b : BookingDoc.t) :
  Booking.validate env
    (BookingDoc.set_paymentStatus paid (BookingDoc.set_status confirmed b))
  = Booking.validate env b.
Proof. reflexivity. Qed.

(** A document that passed validation at some instant passes it at any
    instant whose day has begun by its travel date. *)
Lemma validate_at (env0 env : Env) (b : BookingDoc.t) :
  Booking.validate env0 b = None ->
  startOfDay env (now env) <= BookingDoc.travelDate b ->
  Booking.validate env b = None.
Proof.
  unfold Booking.validate. rewrite !orError_None.
  intros (Hp & Hd & _ & Ha & Hn & Hr & Hph & Hem) Hday.
  repeat split; try assumption.
  destruct (Z.ltb_spec (BookingDoc.travelDate b) (startOfDay env (now env)));
    [lia | reflexivity].
Qed.

(** What passes validation has at least one seat and a travel date from
    the start of the current day on. *)
Lemma validate_seatCount (env : Env) (b : BookingDoc.t) :
  Booking.validate env b = None ->
  1 <= BookingDoc.seatCount b
  /\ startOfDay env (now env) <= BookingDoc.travelDate b.
Proof.
  unfold Booking.validate. rewrite !orError_None.
  intros (_ & _ & Ht & _ & Hn & _).
  destruct (Z.ltb_spec (BookingDoc.seatCount b) 1); [discriminate |].
  destruct (Z.ltb_spec (BookingDoc.travelDate b) (startOfDay env (now env)));
    [discriminate | lia].
Qed.

(** The document a cancellation ends with passes validation when the
    booking did at some instant and can be cancelled now. *)
Lemma validate_cancelledDoc (env0 env : Env) (b : BookingDoc.t)
    (reason : string) :
  Booking.validate env0 b = None ->
  Booking.canCancel env b = true ->
  Booking.validate env (cancelledDoc env b reason) = None.
Proof.
  intros Hv Hcan. apply canCancel_iff in Hcan as [_ Hcan].
  pose proof (startOfDay_le env (now env)) as Hday.
  unfold msPerHour in Hcan.
  revert Hv. unfold Booking.validate. rewrite !orError_None. simpl.
  intros (Hp & Hd & _ & Ha & Hn & _ & Hph & Hem).
  repeat split; try assumption.
  destruct (Z.ltb_spec (BookingDoc.travelDate b) (startOfDay env (now env)));
    [lia | reflexivity].
Qed.

(** C6 (amended).  Confirm on a stored booking: from status pending, when
    the document passes the validators of the schema at the time of the
    request, the handler answers 200 and stores the booking with status
    confirmed and paymentStatus paid; from status pending, when the
    document does not pass them, the handler answers 500 and the store is
    left as it was; from any other status it answers 400 with the current
    status and the store is left as it was. *)
Theorem confirm_transition (env : Env)
    (req : bookingController.ConfirmRequest) (st : Store) (b : BookingDoc.t) :
  bookings st !! bookingController.confirm_id req = Some b ->
  (BookingDoc.status b = pending ->
   Booking.validate env b = None ->
   let b' :=
     BookingDoc.set_paymentStatus paid (BookingDoc.set_status confirmed b) in
   bookingController.confirmBooking env req st =
     (json 200 (BookingConfirmed b'),
      set_bookings (<[BookingDoc._id b := b']> (bookings st)) st)
   /\ BookingDoc.status b' = confirmed
   /\ BookingDoc.paymentStatus b' = paid)
  /\ (BookingDoc.status b = pending ->
      Booking.validate env b <> None ->
      bookingController.confirmBooking env req st =
        (json 500 (ServerError "Server error while confirming booking"), st))
  /\ (BookingDoc.status b <> pending ->
      bookingController.confirmBooking env req st =
        (json 400 (CannotBeConfirmed (BookingDoc.status b)), st)).
Proof.
  intros Hb.
  unfold bookingController.confirmBooking, try_catch, bind, Booking.findById.
  rewrite Hb. split; [| split].
  - intros Hs Hv. rewrite (bool_decide_eq_true_2 _ Hs).
    cbv beta iota delta [negb]. unfold Booking.confirmBooking, Booking.save.
    cbv zeta. rewrite validate_confirmed, Hv. simpl. auto.
  - intros Hs Hv. rewrite (bool_decide_eq_true_2 _ Hs).
    cbv beta iota delta [negb]. unfold Booking.confirmBooking, Booking.save.
    cbv zeta. rewrite validate_confirmed.
    destruct (Booking.validate env b); [reflexivity | contradiction].
  - intros Hs. rewrite (bool_decide_eq_false_2 _ Hs). reflexivity.
Qed.

(** C6, as stated, fails on a pending booking whose travel date lies
    before the start of the current day: the validator of [travelDate]
    runs again when the document is saved, the handler answers 500 and
    the booking stays pending. *)
Lemma confirm_transition_counterexample :
  bookings Sample.overdueStore !! 0%nat = Some Sample.overdueBooking
  /\ BookingDoc.status Sample.overdueBooking = pending
  /\ bookingController.confirmBooking Sample.env Sample.confirmRequest
       Sample.overdueStore
     = (json 500 (ServerError "Server error while confirming booking"),
        Sample.overdueStore)
  /\ BookingDoc.status <$> bookings Sample.overdueStore !! 0%nat
     = Some pending.
Proof. repeat split; vm_compute; reflexivity. Qed.

Lemma canCancel_after_cancelled (env : Env) (b : BookingDoc.t) :
  BookingDoc.status b = cancelled -> Booking.canCancel env b = false.
Proof.
  intros Hs. apply not_true_iff_false. rewrite canCancel_iff.
  intros [Hc _]. congruence.
Qed.

Lemma cancelBooking_rejects (env : Env) (b : BookingDoc.t) (reason : string)
    (st : Store) :
  Booking.canCancel env b = false ->
  Booking.cancelBooking env b reason st =
    (Throw (Error "Booking cannot be cancelled at this time"), st).
Proof. intros H. unfold Booking.cancelBooking. rewrite H. reflexivity. Qed.

(** What [cancelBooking] computes when it goes through: the getter
    [eligibleRefundAmount] is read after [status] was set to cancelled, so
    it answers 0 and [paymentStatus] becomes paid. *)
Lemma cancelBooking_accepts (env : Env) (b : BookingDoc.t) (reason : string)
    (st : Store) :
  Booking.canCancel env b = true ->
  Booking.cancelBooking env b reason st =
    (await bus <- Bus.findById (BookingDoc.busId b) ;;
     await released <- match bus with
                       | Some bus =>
                           await saved <-
                             Bus.releaseSeats bus (BookingDoc.seatCount b) ;;
                           ret tt
                       | None => ret tt
                       end ;;
     Booking.save env false (cancelledDoc env b reason)) st.
Proof.
  intros H. unfold Booking.cancelBooking. rewrite H. simpl.
  unfold Booking.eligibleRefundAmount.
  rewrite canCancel_after_cancelled by reflexivity.
  reflexivity.
Qed.

(** Every cancellation that goes through stores refund 0 and paymentStatus
    paid, whatever the amount and the time left. *)
Lemma cancelBooking_refund_is_zero (env : Env) (b doc : BookingDoc.t)
    (reason : string) (st st' : Store) :
  Booking.cancelBooking env b reason st = (Ok doc, st') ->
  doc = cancelledDoc env b reason
  /\ BookingDoc.status doc = cancelled
  /\ BookingDoc.refundAmount doc = 0
  /\ BookingDoc.paymentStatus doc = paid.
Proof.
  destruct (Booking.canCancel env b) eqn:Hc.
  - rewrite cancelBooking_accepts by exact Hc.
    unfold bind, Bus.findById.
    destruct (buses st !! BookingDoc.busId b) as [bus |].
    + destruct (Bus.releaseSeats bus (BookingDoc.seatCount b) st)
        as [[saved | e] st1]; simpl; [| discriminate].
      destruct (booking_save_cases env false (cancelledDoc env b reason) st1)
        as [(msg & _ & ->) | (_ & ->)]; [discriminate |].
      intros [= <- _]. auto.
    + simpl.
      destruct (booking_save_cases env false (cancelledDoc env b reason) st)
        as [(msg & _ & ->) | (_ & ->)]; [discriminate |].
      intros [= <- _]. auto.
  - rewrite cancelBooking_rejects by exact Hc. discriminate.
Qed.


Ltac unfold_cancel :=
  unfold bookingController.cancelBooking, try_catch, bind, ret,
    Booking.findById.

Lemma authorised_guard (req : bookingController.CancelRequest)
    (b : BookingDoc.t) :
  authorised req b ->
  negb (bool_decide (role (bookingController.cancel_user req) = admin))
  && negb (Nat.eqb (BookingDoc.userId b)
             (user_id (bookingController.cancel_user req))) = false.
Proof.
  intros [Hadmin | Hown].
  - rewrite (bool_decide_eq_true_2 _ Hadmin). reflexivity.
  - rewrite Hown, Nat.eqb_refl. apply andb_false_r.
Qed.

(** Cancel on a booking that is already cancelled or completed: answered
    400 and nothing is written. *)
Lemma cancel_terminal_rejected (env : Env)
    (req : bookingController.CancelRequest) (st : Store) (b : BookingDoc.t) :
  bookings st !! bookingController.cancel_id req = Some b ->
  authorised req b ->
  (BookingDoc.status b = cancelled ->
   bookingController.cancelBooking env req st
     = (json 400 AlreadyCancelled, st))
  /\ (BookingDoc.status b = completed ->
      bookingController.cancelBooking env req st
        = (json 400 CannotCancelCompleted, st)).
Proof.
  intros Hb Hauth. unfold_cancel.
  rewrite Hb, (authorised_guard req b Hauth).
  split; intros Hs; rewrite Hs; reflexivity.
Qed.

(** Cancel on a pending booking: the model method throws, the handler
    answers 400 with its message and nothing is written. *)
Lemma cancel_pending_rejected (env : Env)
    (req : bookingController.CancelRequest) (st : Store) (b : BookingDoc.t) :
  bookings st !! bookingController.cancel_id req = Some b ->
  authorised req b ->
  BookingDoc.status b = pending ->
  bookingController.cancelBooking env req st
    = (json 400 (ErrorMessage "Booking cannot be cancelled at this time"), st).
Proof.
  intros Hb Hauth Hs. unfold_cancel.
  rewrite Hb, (authorised_guard req b Hauth), Hs. cbv beta iota.
  rewrite (bool_decide_eq_false_2 (pending = cancelled)) by discriminate.
  rewrite (bool_decide_eq_false_2 (pending = completed)) by discriminate.
  rewrite cancelBooking_rejects; [reflexivity |].
  apply not_true_iff_false. rewrite canCancel_iff. intros [Hc _]. congruence.
Qed.

(** What a legal cancellation does, in general: the booking is stored as
    cancelled with the reason and the date, the seats go back to the bus
    (clamped at capacity), and the refund stored is 0 with paymentStatus
    paid. *)
Lemma cancel_legal (env : Env) (req : bookingController.CancelRequest)
    (st : Store) (b : BookingDoc.t) (bus : BusDoc.t) :
  bookings st !! bookingController.cancel_id req = Some b ->
  authorised req b ->
  Booking.canCancel env b = true ->
  Booking.validate env b = None ->
  buses st !! BookingDoc.busId b = Some bus ->
  Bus.validate bus = None ->
  let doc :=
    cancelledDoc env b
      (bookingController.reasonOrDefault
         (bookingController.cancel_reason req)) in
  let released :=
    BusDoc.set_availableSeats
      (Z.min (BusDoc.availableSeats bus + BookingDoc.seatCount b)
         (BusDoc.capacity bus)) bus in
  bookingController.cancelBooking env req st
    = (json 200 (BookingCancelled doc 0 "No refund applicable"),
       mkStore (<[BusDoc._id bus := released]> (buses st))
               (<[BookingDoc._id b := doc]> (bookings st))).
Proof.
  intros Hb Hauth Hcan Hvb Hbus Hv doc released. unfold_cancel.
  rewrite Hb, (authorised_guard req b Hauth).
  apply canCancel_iff in Hcan as Hcan'. destruct Hcan' as [Hs _].
  rewrite Hs. cbv beta iota.
  rewrite (bool_decide_eq_false_2 (confirmed = cancelled)) by discriminate.
  rewrite (bool_decide_eq_false_2 (confirmed = completed)) by discriminate.
  rewrite cancelBooking_accepts by exact Hcan.
  unfold bind, Bus.findById. rewrite Hbus.
  rewrite releaseSeats_ok
    by (try assumption; pose proof (validate_seatCount env b Hvb); lia).
  unfold ret, Booking.save. fold doc.
  unfold doc at 1.
  rewrite (validate_cancelledDoc env env b _ Hvb Hcan). reflexivity.
Qed.


(** C7 (the code departs from the claim).  A confirmed booking of total 100
    travelling 30 hours from now is cancellable and the refund policy gives
    it floor(100 * 0.9) = 90; the cancel handler answers 200, stores the
    booking as cancelled with the reason and the cancellation date, and
    returns the two seats to the bus, but the refund it stores is 0 and
    the paymentStatus is paid, not 90 and refunded. *)
Theorem cancel_confirmed_30h_stores_no_refund :
  let b := Sample.booking confirmed 30 in
  Booking.canCancel Sample.env b = true
  /\ Booking.eligibleRefundAmount Sample.env b = 90
  /\ exists doc st',
       bookingController.cancelBooking Sample.env Sample.cancelRequest
         (Sample.store 38 confirmed 30)
       = (json 200 (BookingCancelled doc 0 "No refund applicable"), st')
       /\ bookings st' !! 0%nat = Some doc
       /\ BookingDoc.status doc = cancelled
       /\ BookingDoc.cancellationReason doc = Some "User requested cancellation"%string
       /\ BookingDoc.cancellationDate doc = Some (now Sample.env)
       /\ BookingDoc.refundAmount doc = 0
       /\ BookingDoc.paymentStatus doc = paid
       /\ BusDoc.availableSeats <$> buses st' !! 1%nat = Some 40.
Proof.
  split; [vm_compute; reflexivity |].
  split; [vm_compute; reflexivity |].
  do 2 eexists. split; [vm_compute; reflexivity |].
  vm_compute. repeat split; reflexivity.
Qed.



(** ** The seat-conflict check *)







(** The conflict check of the controller only reads the store. *)
Lemma conflict_check_reads (named : bool) (env : Env) (st : Store)
    (bus : ObjectId) (date : Z) (seats : list string) :
  exists ok,
    (if named then Booking.checkSeatAvailability env bus date seats
     else fun st0 => (Ok true, st0)) st = (Ok ok, st).
Proof. destruct named; eexists; reflexivity. Qed.

Ltac read_conflict_check ok H :=
  match goal with
  | |- context [(if ?c then Booking.checkSeatAvailability ?e ?b ?d ?s
                 else ?f) ?st] =>
      destruct (conflict_check_reads c e st b d s) as [ok H]; rewrite H
  end.

(** ** Booking creation *)

Ltac unfold_create :=
  unfold bookingController.createBooking, try_catch, bind, ret, Bus.findById.

(** A request for more seats than the bus has left is answered 400 before
    anything is written. *)
Lemma createBooking_insufficient_seats (env : Env)
    (req : bookingController.CreateRequest) (st : Store) (bus : BusDoc.t) :
  buses st !! bookingController.create_busId req = Some bus ->
  BusDoc.availableSeats bus
    < Z.of_nat (length (bookingController.create_passengerDetails req)) ->
  exists r,
    bookingController.createBooking env req st = (r, st)
    /\ statusCode r = 400.
Proof.
  intros Hbus Hlt. unfold_create.
  destruct (negb (bookingController.validationResult_isEmpty req));
    [eauto |].
  rewrite Hbus.
  destruct (negb (bool_decide (BusDoc.status bus = active))); [eauto |].
  destruct (_ <? startOfDay env (now env)); [eauto |].
  destruct (negb (bool_decide (_ ∈ BusDoc.operatingDays bus))); [eauto |].
  destruct (Z.ltb_spec (BusDoc.availableSeats bus)
              (Z.of_nat (length (bookingController.create_passengerDetails req))));
    [eauto | lia].
Qed.


(** The reserve step can throw for lack of seats only on a bus that has
    fewer seats than asked for. *)
Lemma bookSeats_throws_not_enough (st : Store) (bus : BusDoc.t) (n : Z) :
  fst (Bus.bookSeats bus n st) = Throw (Error "Not enough available seats") ->
  BusDoc.availableSeats bus < n.
Proof.
  unfold Bus.bookSeats.
  destruct (Z.geb_spec (BusDoc.availableSeats bus) n); [| lia].
  destruct (save_cases false
              (BusDoc.set_availableSeats (BusDoc.availableSeats bus - n) bus)
              st) as [(msg & _ & ->) | (_ & ->)]; discriminate.
Qed.

(** On a document that passes validation, reserving a count that the
    guard lets through goes through. *)
Lemma bookSeats_succeeds (st : Store) (bus : BusDoc.t) (n : Z) :
  Bus.validate bus = None ->
  0 <= n <= BusDoc.availableSeats bus ->
  exists doc st', Bus.bookSeats bus n st = (Ok doc, st').
Proof.
  intros Hv Hn. apply validate_None in Hv as [Hc Ha].
  unfold Bus.bookSeats.
  destruct (Z.geb_spec (BusDoc.availableSeats bus) n); [| lia].
  match goal with
  | |- context [Bus.save false ?d st] =>
      destruct (save_cases false d st) as [(msg & Hbad & _) | (_ & ->)];
      [assert (Bus.validate d = None) as Hok
         by (apply validate_None; simpl; lia); congruence |]
  end.
  eauto.
Qed.

Ltac create_throws :=
  match goal with
  | |- context [Booking.create ?e ?d ?s] =>
      let msg := fresh "msg" in
      let H := fresh "Hcreate" in
      destruct (create_throws e d s) as [msg H]; rewrite H
  end.

(** No create request writes to the store.  A request that fails a check
    is answered 400 or 404 before the first write; a request that passes
    them all reaches [Booking.create], which throws, and is answered 500
    before the reserve step runs. *)
Lemma createBooking_leaves_store (env : Env)
    (req : bookingController.CreateRequest) (st : Store) :
  exists r,
    bookingController.createBooking env req st = (r, st)
    /\ (statusCode r = 400 \/ statusCode r = 404 \/ statusCode r = 500).
Proof.
  unfold_create.
  destruct (negb (bookingController.validationResult_isEmpty req));
    [eauto |].
  destruct (buses st !! bookingController.create_busId req) as [bus |];
    [| eauto 6].
  destruct (negb (bool_decide (BusDoc.status bus = active))); [eauto |].
  destruct (_ <? startOfDay env (now env)); [eauto |].
  destruct (negb (bool_decide (_ ∈ BusDoc.operatingDays bus))); [eauto |].
  destruct (BusDoc.availableSeats bus <? _); [eauto |].
  read_conflict_check ok Hok. destruct ok; cbv beta iota delta [negb];
    [| eauto].
  create_throws. eauto 6.
Qed.

(** C1.  Creation and the reserve step.  For every create request: if
    reserving the requested number of seats on the bus the request names
    fails for lack of seats ([bookSeats] throws 'Not enough available
    seats'), the handler fails too, with status 400, and leaves the store
    exactly as it was: no booking is stored and no bus document is
    written. *)
Theorem createBooking_failure_atomic (env : Env)
    (req : bookingController.CreateRequest) (st : Store) (bus : BusDoc.t) :
  buses st !! bookingController.create_busId req = Some bus ->
  fst (Bus.bookSeats bus
         (Z.of_nat (length (bookingController.create_passengerDetails req)))
         st)
    = Throw (Error "Not enough available seats") ->
  exists r,
    bookingController.createBooking env req st = (r, st)
    /\ statusCode r = 400.
Proof.
  intros Hbus Hthrow.
  apply createBooking_insufficient_seats with (bus := bus); [exact Hbus |].
  apply bookSeats_throws_not_enough with (st := st). exact Hthrow.
Qed.

(** When the guard on the seat count has passed, the reserve step that
    follows the creation of the record does not throw for lack of seats. *)
Lemma reserve_after_guard_has_seats (st : Store) (bus : BusDoc.t) (n : Z) :
  (BusDoc.availableSeats bus <? n) = false ->
  fst (Bus.bookSeats bus n st) <> Throw (Error "Not enough available seats").
Proof.
  intros Hguard Hthrow. apply bookSeats_throws_not_enough in Hthrow.
  apply Z.ltb_ge in Hguard. lia.
Qed.




(** ** Cancellation through the controller, and the round trip *)

(** A cancel request answered 200 went through the model method on the
    stored booking. *)
Lemma cancelBooking_answered_200 (env : Env)
    (req : bookingController.CancelRequest) (st st' : Store) (r : Response) :
  bookingController.cancelBooking env req st = (r, st') ->
  statusCode r = 200 ->
  exists b doc,
    bookings st !! bookingController.cancel_id req = Some b
    /\ Booking.cancelBooking env b
         (bookingController.reasonOrDefault
            (bookingController.cancel_reason req)) st = (Ok doc, st').
Proof.
  unfold bookingController.cancelBooking, try_catch, bind, ret,
    Booking.findById.
  destruct (bookings st !! bookingController.cancel_id req) as [b |];
    [| intros [= <- _]; discriminate].
  destruct (_ && _); [intros [= <- _]; discriminate |].
  destruct (bool_decide (BookingDoc.status b = cancelled));
    [intros [= <- _]; discriminate |].
  destruct (bool_decide (BookingDoc.status b = completed));
    [intros [= <- _]; discriminate |].
  destruct (Booking.cancelBooking env b _ st) as [[doc | e] st1] eqn:Hc.
  - intros [= <- <-] _. eauto.
  - destruct (String_includes _ _); intros [= <- _]; discriminate.
Qed.

(** When the bus is stored, a cancellation that goes through has written
    the released bus document and no other bus. *)
Lemma cancelBooking_releases (env : Env) (b doc : BookingDoc.t)
    (reason : string) (st st' : Store) (bus : BusDoc.t) :
  Booking.cancelBooking env b reason st = (Ok doc, st') ->
  buses st !! BookingDoc.busId b = Some bus ->
  let released :=
    BusDoc.set_availableSeats
      (Z.min (BusDoc.availableSeats bus + BookingDoc.seatCount b)
         (BusDoc.capacity bus)) bus in
  Bus.validate released = None
  /\ buses st' =
       <[BusDoc._id (Bus.pre_save false released) :=
           Bus.pre_save false released]> (buses st).
Proof.
  intros Hc Hbus released.
  destruct (Booking.canCancel env b) eqn:Hcan;
    [| rewrite cancelBooking_rejects in Hc by exact Hcan; discriminate].
  rewrite cancelBooking_accepts in Hc by exact Hcan.
  unfold bind, Bus.findById, Bus.releaseSeats in Hc. rewrite Hbus in Hc.
  fold released in Hc.
  destruct (save_cases false released st) as [(msg & _ & Hs) | (Hv & Hs)];
    rewrite Hs in Hc; [discriminate |].
  simpl in Hc.
  match type of Hc with
  | Booking.save env false ?d ?s = _ =>
      destruct (booking_save_cases env false d s)
        as [(msg & _ & Hb) | (_ & Hb)]; rewrite Hb in Hc
  end; [discriminate |].
  injection Hc as _ <-. auto.
Qed.

(** A cancellation that goes through was allowed, and the document it
    stores passed validation. *)
Lemma cancelBooking_went_through (env : Env) (b doc : BookingDoc.t)
    (reason : string) (st st' : Store) :
  Booking.cancelBooking env b reason st = (Ok doc, st') ->
  Booking.canCancel env b = true
  /\ Booking.validate env (cancelledDoc env b reason) = None.
Proof.
  intros Hc.
  destruct (Booking.canCancel env b) eqn:Hcan;
    [| rewrite cancelBooking_rejects in Hc by exact Hcan; discriminate].
  split; [reflexivity |].
  rewrite cancelBooking_accepts in Hc by exact Hcan.
  unfold bind in Hc.
  destruct (Bus.findById (BookingDoc.busId b) st) as [[bus | e] st0];
    [| discriminate].
  match type of Hc with
  | match ?c with _ => _ end = _ =>
      destruct c as [[u | e] st1]; [| discriminate]
  end.
  destruct (booking_save_cases env false (cancelledDoc env b reason) st1)
    as [(msg & _ & Hb) | (Hv & _)]; [rewrite Hb in Hc; discriminate |].
  exact Hv.
Qed.

(** C9 (amended).  Round trip on the ledger, for every bus document and
    every [n].  Reserving [n] seats on the document goes through; later, in
    a store where the entry of that bus is still the one the reservation
    left (no other reservation or release on it), the cancellation of a
    booking of [n] seats on that bus goes through.  Then the bus has
    [min availableSeats capacity] available seats, for the values it had
    before the reservation: the number it had before, on every bus whose
    available seats did not exceed its capacity. *)
Theorem booking_round_trip (env : Env) (st0 st1 st2 st3 : Store)
    (bus0 bus1 : BusDoc.t) (n : Z) (bk doc : BookingDoc.t)
    (reason : string) :
  Bus.bookSeats bus0 n st0 = (Ok bus1, st1) ->
  buses st2 !! BusDoc._id bus0 = buses st1 !! BusDoc._id bus0 ->
  BookingDoc.busId bk = BusDoc._id bus0 ->
  BookingDoc.seatCount bk = n ->
  Booking.cancelBooking env bk reason st2 = (Ok doc, st3) ->
  BusDoc.availableSeats <$> buses st3 !! BusDoc._id bus0
    = Some (Z.min (BusDoc.availableSeats bus0) (BusDoc.capacity bus0))
  /\ (BusDoc.availableSeats bus0 <= BusDoc.capacity bus0 ->
      BusDoc.availableSeats <$> buses st3 !! BusDoc._id bus0
        = Some (BusDoc.availableSeats bus0)).
Proof.
  intros Hbook Hsame Hbus Hn Hcancel.
  destruct (cancelBooking_went_through _ _ _ _ _ _ Hcancel) as [_ Hv].
  apply validate_seatCount in Hv as [Hseats _]. simpl in Hseats.
  rewrite Hn in Hseats.
  unfold Bus.bookSeats in Hbook.
  destruct (Z.geb_spec (BusDoc.availableSeats bus0) n); [| discriminate].
  destruct (save_cases false
              (BusDoc.set_availableSeats (BusDoc.availableSeats bus0 - n) bus0)
              st0) as [(msg & _ & Hs) | (Hv0 & Hs)];
    rewrite Hs in Hbook; [discriminate |].
  rewrite pre_save_loaded_min in Hbook.
  injection Hbook as <- <-.
  simpl in Hsame. rewrite lookup_insert_eq in Hsame.
  eapply cancelBooking_releases in Hcancel;
    [| rewrite Hbus; exact Hsame].
  destruct Hcancel as [_ ->].
  rewrite Hn.
  rewrite pre_save_loaded_min.
  simpl. rewrite lookup_insert_eq. simpl.
  split; [f_equal; lia | intros Hcap; f_equal; lia].
Qed.

(** C9, as stated, fails on a bus with more available seats than
    capacity, which the bus update can store: on bus 1 with capacity 1 and
    2 available seats, reserving 1 seat goes through and leaves 1, and the
    cancellation of a booking of 1 seat on it goes through and leaves 1,
    not 2, because the release stops at the capacity. *)
Lemma booking_round_trip_counterexample :
  exists bus1 st1 doc st3,
    Bus.bookSeats Sample.shrunkBus 1 Sample.shrunkStore = (Ok bus1, st1)
    /\ Booking.cancelBooking Sample.env Sample.singleBooking
         "User requested cancellation" st1 = (Ok doc, st3)
    /\ BusDoc.availableSeats Sample.shrunkBus = 2
    /\ BusDoc.availableSeats <$> buses st3 !! 1%nat = Some 1.
Proof.
  do 4 eexists. split; [vm_compute; reflexivity |].
  split; [vm_compute; reflexivity |].
  split; vm_compute; reflexivity.
Qed.

(** ** The theorems at sample inputs *)

Lemma createBooking_failure_atomic_witness :
  buses (Sample.emptyStore 2) !! 1%nat = Some (Sample.bus 2)
  /\ fst (Bus.bookSeats (Sample.bus 2) 3 (Sample.emptyStore 2))
       = Throw (Error "Not enough available seats")
  /\ exists r,
       bookingController.createBooking Sample.env
         (Sample.createRequest ["A1"; "A2"; "A3"]%string) (Sample.emptyStore 2)
       = (r, Sample.emptyStore 2)
       /\ statusCode r = 400.
Proof.
  assert (buses (Sample.emptyStore 2) !! 1%nat = Some (Sample.bus 2)) as H1
    by (vm_compute; reflexivity).
  assert (fst (Bus.bookSeats (Sample.bus 2) 3 (Sample.emptyStore 2))
          = Throw (Error "Not enough available seats")) as H2
    by (vm_compute; reflexivity).
  split; [exact H1 |]. split; [exact H2 |].
  exact (createBooking_failure_atomic Sample.env
           (Sample.createRequest ["A1"; "A2"; "A3"]%string)
           (Sample.emptyStore 2) (Sample.bus 2) H1 H2).
Defined.

Lemma ledger_invariant_after_every_operation_witness :
  ledger_invariant (Sample.emptyStore 2)
  /\ ledger_invariant
       (run (CreateBooking Sample.env (Sample.createRequest ["A1"]%string))
          (Sample.emptyStore 2)).
Proof.
  assert (ledger_invariant (Sample.emptyStore 2)) as H.
  { unfold ledger_invariant, Sample.emptyStore. simpl.
    apply map_Forall_singleton. unfold ledger_ok. simpl. lia. }
  split; [exact H |].
  exact (ledger_invariant_after_every_operation
           (CreateBooking Sample.env (Sample.createRequest ["A1"]%string))
           (Sample.emptyStore 2) H).
Defined.

Lemma bookSeats_reserve_witness :
  (exists doc,
     Bus.bookSeats (Sample.bus 5) 3 (Sample.emptyStore 5)
       = (Ok doc,
          set_buses (<[1%nat := doc]> (buses (Sample.emptyStore 5)))
            (Sample.emptyStore 5))
     /\ BusDoc.availableSeats doc = 2)
  /\ (exists doc,
        Bus.bookSeats (Sample.bus 50) 3 (Sample.emptyStore 50)
          = (Ok doc,
             set_buses (<[1%nat := doc]> (buses (Sample.emptyStore 50)))
               (Sample.emptyStore 50))
        /\ BusDoc.availableSeats doc = 40)
  /\ Bus.bookSeats (Sample.bus 2) 3 (Sample.emptyStore 2)
       = (Throw (Error "Not enough available seats"), Sample.emptyStore 2).
Proof.
  split; [| split].
  - destruct (bookSeats_reserve (Sample.emptyStore 5) (Sample.bus 5) 3)
      as [Hok _].
    destruct Hok as (doc & Heq & _ & Hseats & _);
      [reflexivity | simpl; lia |].
    exists doc. split; [exact Heq | apply Hseats; simpl; lia].
  - destruct (bookSeats_reserve (Sample.emptyStore 50) (Sample.bus 50) 3)
      as [Hok _].
    destruct Hok as (doc & Heq & Hseats & _);
      [reflexivity | simpl; lia |].
    exists doc. split; [exact Heq | rewrite Hseats; reflexivity].
  - destruct (bookSeats_reserve (Sample.emptyStore 2) (Sample.bus 2) 3)
      as [_ Hfail].
    apply Hfail. simpl. lia.
Defined.

Lemma releaseSeats_clamps_witness :
  exists doc,
    Bus.releaseSeats (Sample.bus 38) 5 (Sample.emptyStore 38)
      = (Ok doc,
         set_buses (<[1%nat := doc]> (buses (Sample.emptyStore 38)))
           (Sample.emptyStore 38))
    /\ BusDoc.availableSeats doc = 40.
Proof.
  destruct (releaseSeats_clamps (Sample.emptyStore 38) (Sample.bus 38) 5)
    as (doc & Heq & Hseats & _); [reflexivity | lia |].
  exists doc. split; [exact Heq | exact Hseats].
Defined.

Lemma refund_policy_witness :
  Booking.canCancel Sample.env (Sample.booking pending 30) = false
  /\ Booking.eligibleRefundAmount Sample.env (Sample.booking confirmed 1) = 0
  /\ Booking.eligibleRefundAmount Sample.env (Sample.booking confirmed 30) = 90
  /\ Booking.eligibleRefundAmount Sample.env (Sample.booking confirmed 10) = 50.
Proof.
  split; [| split; [| split]].
  - apply (refund_policy Sample.env (Sample.booking pending 30)).
    reflexivity.
  - apply (refund_policy Sample.env (Sample.booking confirmed 1)).
    vm_compute. reflexivity.
  - destruct (refund_policy Sample.env (Sample.booking confirmed 30))
      as (_ & _ & _ & H & _).
    rewrite H; [reflexivity | vm_compute; reflexivity | vm_compute; reflexivity].
  - destruct (refund_policy Sample.env (Sample.booking confirmed 10))
      as (_ & _ & _ & _ & H).
    rewrite H; [reflexivity | vm_compute; reflexivity |].
    vm_compute. discriminate.
Defined.

Lemma confirm_transition_witness :
  (exists st',
     bookingController.confirmBooking Sample.env Sample.confirmRequest
       (Sample.store 38 pending 43)
     = (json 200 (BookingConfirmed (Sample.booking confirmed 43)), st')
     /\ bookings st' !! 0%nat = Some (Sample.booking confirmed 43))
  /\ bookingController.confirmBooking Sample.env Sample.confirmRequest
       (Sample.store 38 completed 43)
     = (json 400 (CannotBeConfirmed completed), Sample.store 38 completed 43).
Proof.
  split.
  - destruct (confirm_transition Sample.env Sample.confirmRequest
                (Sample.store 38 pending 43) (Sample.booking pending 43))
      as [Hok _]; [vm_compute; reflexivity |].
    destruct Hok as (Heq & _); [reflexivity | vm_compute; reflexivity |].
    eexists. split; [exact Heq |]. vm_compute. reflexivity.
  - destruct (confirm_transition Sample.env Sample.confirmRequest
                (Sample.store 38 completed 43) (Sample.booking completed 43))
      as (_ & _ & Hno); [vm_compute; reflexivity |].
    apply Hno. simpl. discriminate.
Defined.


Lemma booking_round_trip_witness :
  BusDoc.availableSeats <$>
    buses
      (snd (Booking.cancelBooking Sample.env (Sample.booking confirmed 30)
              "User requested cancellation"
              (snd (Bus.bookSeats (Sample.bus 36) 2
                      (Sample.store 36 confirmed 30)))))
    !! BusDoc._id (Sample.bus 36)
  = Some (BusDoc.availableSeats (Sample.bus 36)).
Proof.
  refine (proj2
            (booking_round_trip Sample.env
               (Sample.store 36 confirmed 30)
               (snd (Bus.bookSeats (Sample.bus 36) 2
                       (Sample.store 36 confirmed 30)))
               (snd (Bus.bookSeats (Sample.bus 36) 2
                       (Sample.store 36 confirmed 30)))
               _ (Sample.bus 36) (Sample.bus 34) 2
               (Sample.booking confirmed 30)
               (cancelledDoc Sample.env (Sample.booking confirmed 30)
                  "User requested cancellation")
               "User requested cancellation" _ _ _ _ _) _);
    first [vm_compute; reflexivity | vm_compute; discriminate].
Defined.



(** * Further properties of the code *)

(** ** What each handler does to the store *)





Lemma confirmBooking_eq (env : Env) (req : bookingController.ConfirmRequest)
    (st : Store) :
  bookingController.confirmBooking env req st =
    match bookings st !! bookingController.confirm_id req with
    | None => (json 404 BookingNotFound, st)
    | Some b =>
        if bool_decide (BookingDoc.status b = pending)
        then
          match Booking.validate env b with
          | None =>
              let b' :=
                BookingDoc.set_paymentStatus paid
                  (BookingDoc.set_status confirmed b) in
              (json 200 (BookingConfirmed b'),
               set_bookings (<[BookingDoc._id b := b']> (bookings st)) st)
          | Some msg =>
              (json 500 (ServerError "Server error while confirming booking"),
               st)
          end
        else (json 400 (CannotBeConfirmed (BookingDoc.status b)), st)
    end.
Proof.
  unfold bookingController.confirmBooking, try_catch, bind, Booking.findById.
  destruct (bookings st !! bookingController.confirm_id req) as [b |];
    [| reflexivity].
  destruct (bool_decide (BookingDoc.status b = pending)); [| reflexivity].
  cbv beta iota delta [negb].
  unfold Booking.confirmBooking, Booking.save. cbv zeta.
  rewrite validate_confirmed.
  destruct (Booking.validate env b); reflexivity.
Qed.

Lemma authorised_of_guard (req : bookingController.CancelRequest)
    (b : BookingDoc.t) :
  negb (bool_decide (role (bookingController.cancel_user req) = admin))
  && negb (Nat.eqb (BookingDoc.userId b)
             (user_id (bookingController.cancel_user req))) = false ->
  authorised req b.
Proof.
  intros H. apply andb_false_iff in H as [H | H];
    apply negb_false_iff in H.
  - left. apply bool_decide_eq_true in H. exact H.
  - right. apply Nat.eqb_eq in H. exact H.
Qed.

(** No message of a validator of the booking schema reads as a refusal
    to cancel. *)
Lemma passengersError_message (ps : list Passenger) (msg : string) :
  passengersError ps = Some msg ->
  String_includes msg "cannot be cancelled" = false.
Proof.
  induction ps as [| p ps IH]; simpl; [discriminate |].
  unfold passengerError.
  repeat match goal with
         | |- context [if ?c then _ else _] => destruct c
         end;
    try (intros H; injection H as <-; reflexivity).
  exact IH.
Qed.

Lemma validate_message (env : Env) (b : BookingDoc.t) (msg : string) :
  Booking.validate env b = Some msg ->
  String_includes msg "cannot be cancelled" = false.
Proof.
  unfold Booking.validate, orError, phoneError, emailError.
  destruct (passengersError (BookingDoc.passengerDetails b)) as [m |] eqn:Hp.
  { intros [= <-]. exact (passengersError_message _ _ Hp). }
  destruct (BookingDoc.bookingDate b);
    repeat match goal with
           | |- context [if ?c then _ else _] => destruct c
           end;
    intros H; first [discriminate H | injection H as <-; reflexivity].
Qed.

(** A cancel request either changes nothing and is not answered 200, or it
    comes from an authorised caller for a cancellable booking.  Then the
    bus, when it is stored, is written with the seats released, and the
    booking is stored as cancelled when the document passes validation;
    when it does not, the answer is 500 and the booking stays as it was,
    while the bus keeps the seats that were released. *)
Lemma cancelBooking_cases (env : Env) (req : bookingController.CancelRequest)
    (st : Store) :
  (exists r,
     bookingController.cancelBooking env req st = (r, st)
     /\ statusCode r <> 200)
  \/ (exists b,
        bookings st !! bookingController.cancel_id req = Some b
        /\ authorised req b
        /\ Booking.canCancel env b = true
        /\ let doc :=
             cancelledDoc env b
               (bookingController.reasonOrDefault
                  (bookingController.cancel_reason req)) in
           let r := json 200 (BookingCancelled doc 0 "No refund applicable") in
           match buses st !! BookingDoc.busId b with
           | None =>
               Booking.validate env doc = None
               /\ bookingController.cancelBooking env req st =
                    (r, set_bookings (<[BookingDoc._id b := doc]> (bookings st))
                          st)
           | Some bus =>
               let bus' := released bus (BookingDoc.seatCount b) in
               (Booking.validate env doc = None
                /\ bookingController.cancelBooking env req st =
                     (r, mkStore (<[BusDoc._id bus' := bus']> (buses st))
                                 (<[BookingDoc._id b := doc]> (bookings st))))
               \/ (Booking.validate env doc <> None
                   /\ bookingController.cancelBooking env req st =
                        (json 500
                           (ServerError "Server error while cancelling booking"),
                         set_buses (<[BusDoc._id bus' := bus']> (buses st)) st))
           end).
Proof.
  unfold_cancel.
  destruct (bookings st !! bookingController.cancel_id req) as [b |] eqn:Hb;
    [| left; eexists; split; [reflexivity | discriminate]].
  destruct (_ && _) eqn:Hguard;
    [left; eexists; split; [reflexivity | discriminate] |].
  apply authorised_of_guard in Hguard.
  destruct (bool_decide (BookingDoc.status b = cancelled));
    [left; eexists; split; [reflexivity | discriminate] |].
  destruct (bool_decide (BookingDoc.status b = completed));
    [left; eexists; split; [reflexivity | discriminate] |].
  destruct (Booking.canCancel env b) eqn:Hcan.
  2:{ left. rewrite cancelBooking_rejects by exact Hcan.
      eexists; split; [reflexivity | discriminate]. }
  rewrite cancelBooking_accepts by exact Hcan.
  unfold bind, Bus.findById.
  destruct (buses st !! BookingDoc.busId b) as [bus |] eqn:Hbus.
  - unfold Bus.releaseSeats.
    match goal with
    | |- context [Bus.save false ?d st] =>
        destruct (save_cases false d st) as [(msg & _ & ->) | (_ & ->)]
    end.
    + left. destruct (String_includes _ _);
        eexists; split; try reflexivity; discriminate.
    + right. exists b. rewrite Hbus.
      split; [reflexivity |]. split; [exact Hguard |].
      split; [exact Hcan |]. cbv zeta. unfold ret. cbv beta iota.
      match goal with
      | |- context [Booking.save env false ?d ?s] =>
          destruct (booking_save_cases env false d s)
            as [(msg & Hv & ->) | (Hv & ->)]
      end.
      * right. split; [congruence |].
        simpl. rewrite (validate_message _ _ _ Hv). reflexivity.
      * left. split; [exact Hv | reflexivity].
  - unfold ret. cbv beta iota.
    match goal with
    | |- context [Booking.save env false ?d ?s] =>
        destruct (booking_save_cases env false d s)
          as [(msg & Hv & Hs) | (Hv & Hs)]
    end.
    + left. rewrite Hs. simpl.
      rewrite (validate_message _ _ _ Hv).
      eexists; split; [reflexivity | discriminate].
    + right. exists b. rewrite Hbus.
      split; [reflexivity |]. split; [exact Hguard |].
      split; [exact Hcan |]. cbv zeta. split; [exact Hv |].
      rewrite Hs. reflexivity.
Qed.

Lemma countDocuments_eq (p : BookingDoc.t -> bool) (st : Store) :
  Booking.countDocuments p st =
    (Ok (Z.of_nat
           (length (List.filter p (map snd (map_to_list (bookings st)))))),
     st).
Proof. reflexivity. Qed.

Lemma deleteBus_eq (env : Env) (id : ObjectId) (st : Store) :
  busController.deleteBus env id st =
    match buses st !! id with
    | None => (deleteJson 404 DeleteBusNotFound, st)
    | Some bus =>
        let n :=
          Z.of_nat
            (length (List.filter (busController.activeBooking env id)
                       (map snd (map_to_list (bookings st))))) in
        if n >? 0
        then (deleteJson 400 (CannotDeleteBus n), st)
        else (deleteJson 200 BusDeleted,
              set_buses (delete id (buses st)) st)
    end.
Proof.
  unfold busController.deleteBus, try_catch, bind, Bus.findById.
  destruct (buses st !! id) as [bus |]; [| reflexivity].
  rewrite countDocuments_eq. cbv beta iota zeta.
  destruct (_ >? 0); reflexivity.
Qed.

(** The validators of the route imply those of the update, so the update
    itself is never rejected once the route let the request through. *)
Lemma route_validators_imply_update (req : busController.UpdateRequest) :
  busController.validationResult_isEmpty req = true ->
  Bus.validateUpdate (busController.update_body req) = None.
Proof.
  unfold busController.validationResult_isEmpty, Bus.validateUpdate,
    Bus.capacityError, Bus.availableSeatsError.
  destruct (Bus.upd_capacity _) as [c |],
           (Bus.upd_availableSeats _) as [a |]; simpl;
    rewrite ?andb_true_iff, ?Z.leb_le; intros H;
    repeat match goal with
           | |- context [?x <? ?y] => destruct (Z.ltb_spec x y)
           end; try reflexivity; lia.
Qed.

Lemma updateBus_eq (req : busController.UpdateRequest) (st : Store) :
  busController.updateBus req st =
    if negb (busController.validationResult_isEmpty req)
    then (json 400 ValidationFailed, st)
    else
      match buses st !! busController.update_id req with
      | None => (json 404 BusNotFound, st)
      | Some b =>
          let doc := Bus.applyUpdate (busController.update_body req) b in
          (json 200 (BusUpdated (Some doc)),
           set_buses (<[busController.update_id req := doc]> (buses st)) st)
      end.
Proof.
  unfold busController.updateBus, try_catch, bind, ret, Bus.findById,
    Bus.findByIdAndUpdate.
  destruct (busController.validationResult_isEmpty req) eqn:Hval;
    [| reflexivity].
  cbv beta iota delta [negb].
  destruct (buses st !! busController.update_id req) as [b |] eqn:Hb;
    [| reflexivity].
  rewrite (route_validators_imply_update req Hval), Hb. reflexivity.
Qed.

(** ** Bookings through a flow of requests *)

Lemma frozen_refl (b : BookingDoc.t) : frozen b b.
Proof. repeat split. Qed.

Lemma frozen_trans (a b c : BookingDoc.t) :
  frozen a b -> frozen b c -> frozen a c.
Proof.
  unfold frozen. intros H1 H2.
  destruct H1 as (?&?&?&?&?&?&?&?&?), H2 as (?&?&?&?&?&?&?&?&?).
  repeat split; congruence.
Qed.

Lemma statusReach_refl (s : BookingStatus) : statusReach s s.
Proof. left. reflexivity. Qed.

Lemma statusReach_trans (a b c : BookingStatus) :
  statusReach a b -> statusReach b c -> statusReach a c.
Proof.
  unfold statusReach.
  destruct a, b, c; intuition congruence.
Qed.

(** Writing a later state of a stored booking under its [_id] keeps every
    booking in place and moves only that one. *)
Lemma bookings_rewrite_step (m : gmap nat BookingDoc.t) (key : nat)
    (b new : BookingDoc.t) :
  map_Forall (fun k x => BookingDoc._id x = k) m ->
  m !! key = Some b ->
  frozen b new ->
  statusReach (BookingDoc.status b) (BookingDoc.status new) ->
  map_Forall (fun k x => BookingDoc._id x = k) (<[BookingDoc._id b := new]> m)
  /\ forall k x,
       m !! k = Some x ->
       exists x',
         <[BookingDoc._id b := new]> m !! k = Some x'
         /\ frozen x x'
         /\ statusReach (BookingDoc.status x) (BookingDoc.status x').
Proof.
  intros Hids Hb Hfrozen Hreach.
  pose proof (Hids _ _ Hb) as Hkey. simpl in Hkey.
  split.
  - apply map_Forall_insert_2; [| exact Hids].
    destruct Hfrozen as [Hid _]. exact Hid.
  - intros k x Hx. destruct (decide (BookingDoc._id b = k)) as [<- | Hne].
    + rewrite lookup_insert_eq. exists new.
      assert (x = b) as -> by congruence. auto.
    + rewrite lookup_insert_ne by exact Hne. exists x.
      split; [exact Hx |]. split; [apply frozen_refl | apply statusReach_refl].
Qed.

Lemma bookings_same_step (m : gmap nat BookingDoc.t) :
  forall k x,
    m !! k = Some x ->
    exists x',
      m !! k = Some x'
      /\ frozen x x'
      /\ statusReach (BookingDoc.status x) (BookingDoc.status x').
Proof.
  intros k x Hx. exists x.
  split; [exact Hx |]. split; [apply frozen_refl | apply statusReach_refl].
Qed.

(** One request: bookings stay stored under their [_id], none is removed,
    each keeps its frozen fields and its status stays or moves forward. *)
Lemma handle_bookings_step (r : ApiRequest) (st : Store) :
  bookings_ids_ok st ->
  bookings_ids_ok (handle r st)
  /\ forall k b,
       bookings st !! k = Some b ->
       exists b',
         bookings (handle r st) !! k = Some b'
         /\ frozen b b'
         /\ statusReach (BookingDoc.status b) (BookingDoc.status b').
Proof.
  intros Hids. destruct r as [env req | env req | env req | req | env id];
    unfold handle.
  - destruct (createBooking_leaves_store env req st) as (r & -> & _).
    split; [exact Hids | apply bookings_same_step].
  - rewrite confirmBooking_eq.
    destruct (bookings st !! bookingController.confirm_id req) as [b |]
      eqn:Hb; [| split; [exact Hids | apply bookings_same_step]].
    destruct (bool_decide (BookingDoc.status b = pending)) eqn:Hs;
      [| split; [exact Hids | apply bookings_same_step]].
    destruct (Booking.validate env b);
      [split; [exact Hids | apply bookings_same_step] |].
    apply bool_decide_eq_true in Hs. simpl.
    apply (bookings_rewrite_step (bookings st)
             (bookingController.confirm_id req) b); auto.
    + repeat split.
    + simpl. rewrite Hs. right. left. auto.
  - destruct (cancelBooking_cases env req st)
      as [(r & -> & _) | (b & Hb & _ & Hcan & Hout)].
    + split; [exact Hids | apply bookings_same_step].
    + apply canCancel_iff in Hcan as [Hs _]. cbv zeta in Hout.
      destruct (buses st !! BookingDoc.busId b);
        [destruct Hout as [[_ Hout] | [_ Hout]] | destruct Hout as [_ Hout]];
        rewrite Hout; simpl;
        try (split; [exact Hids | apply bookings_same_step]);
        apply (bookings_rewrite_step (bookings st)
                 (bookingController.cancel_id req) b); auto;
        try (repeat split); simpl; rewrite Hs; right; right; auto.
  - rewrite updateBus_eq.
    destruct (negb _); [split; [exact Hids | apply bookings_same_step] |].
    destruct (buses st !! _);
      split; try exact Hids; apply bookings_same_step.
  - rewrite deleteBus_eq.
    destruct (buses st !! id);
      [| split; [exact Hids | apply bookings_same_step]].
    cbv zeta. destruct (_ >? 0);
      split; try exact Hids; apply bookings_same_step.
Qed.

(** X1.  Through any sequence of requests (create, confirm, cancel, bus
    update, bus delete), starting from a store whose bookings are stored
    under their [_id]: a stored booking is never removed, its identity,
    user, bus, passengers, dates, amount, seat count and payment method
    never change, and its status either stays or moves forward along
    pending, confirmed, cancelled. *)
Theorem bookings_only_move_forward (rs : list ApiRequest) :
  forall (st : Store) (k : nat) (b : BookingDoc.t),
    bookings_ids_ok st ->
    bookings st !! k = Some b ->
    exists b',
      bookings (handleAll rs st) !! k = Some b'
      /\ frozen b b'
      /\ statusReach (BookingDoc.status b) (BookingDoc.status b').
Proof.
  induction rs as [| r rs IH]; intros st k b Hids Hb; simpl.
  - exists b. split; [exact Hb |].
    split; [apply frozen_refl | apply statusReach_refl].
  - destruct (handle_bookings_step r st Hids) as [Hids' Hstep].
    destruct (Hstep k b Hb) as (b1 & Hb1 & Hf1 & Hr1).
    destruct (IH (handle r st) k b1 Hids' Hb1) as (b2 & Hb2 & Hf2 & Hr2).
    exists b2. split; [exact Hb2 |].
    split; [eapply frozen_trans | eapply statusReach_trans]; eassumption.
Qed.

Lemma bookings_only_move_forward_witness :
  exists b',
    bookings (handleAll Sample.flow (Sample.store 38 pending 30)) !! 0%nat
      = Some b'
    /\ frozen (Sample.booking pending 30) b'
    /\ statusReach (BookingDoc.status (Sample.booking pending 30))
         (BookingDoc.status b').
Proof.
  apply (bookings_only_move_forward Sample.flow
           (Sample.store 38 pending 30) 0%nat (Sample.booking pending 30)).
  - unfold bookings_ids_ok, Sample.store. cbn [bookings].
    apply map_Forall_singleton. reflexivity.
  - reflexivity.
Defined.

Lemma handle_payment_step (r : ApiRequest) (st : Store) :
  map_Forall (fun _ b => payment_in_step b) (bookings st) ->
  map_Forall (fun _ b => payment_in_step b) (bookings (handle r st)).
Proof.
  intros Hinv. destruct r as [env req | env req | env req | req | env id];
    unfold handle.
  - destruct (createBooking_leaves_store env req st) as (r & -> & _).
    exact Hinv.
  - rewrite confirmBooking_eq.
    destruct (bookings st !! bookingController.confirm_id req) as [b |]
      eqn:Hb; [| exact Hinv].
    destruct (bool_decide (BookingDoc.status b = pending)); [| exact Hinv].
    destruct (Booking.validate env b); [exact Hinv |].
    simpl. apply map_Forall_insert_2; [| exact Hinv].
    destruct (Hinv _ _ Hb) as [Hrefund _]. split; [exact Hrefund | reflexivity].
  - destruct (cancelBooking_cases env req st)
      as [(r & -> & _) | (b & Hb & _ & _ & Hout)]; [exact Hinv |].
    cbv zeta in Hout.
    destruct (buses st !! BookingDoc.busId b);
      [destruct Hout as [[_ Hout] | [_ Hout]] | destruct Hout as [_ Hout]];
      rewrite Hout; simpl; try exact Hinv;
      (apply map_Forall_insert_2; [split; reflexivity | exact Hinv]).
  - rewrite updateBus_eq. destruct (negb _); [exact Hinv |].
    destruct (buses st !! _); exact Hinv.
  - rewrite deleteBus_eq. destruct (buses st !! id); [| exact Hinv].
    cbv zeta. destruct (_ >? 0); exact Hinv.
Qed.

(** X2.  Payment fields through any sequence of requests.  If every
    stored booking has refund 0 and the paymentStatus that goes with its
    status (pending with pending, paid with confirmed and with cancelled),
    this is still so after the sequence: the handlers never store a refund
    and never store the paymentStatus refunded or failed. *)
Theorem payments_stay_in_step (rs : list ApiRequest) :
  forall st : Store,
    map_Forall (fun _ b => payment_in_step b) (bookings st) ->
    map_Forall (fun _ b => payment_in_step b) (bookings (handleAll rs st)).
Proof.
  induction rs as [| r rs IH]; intros st H; simpl; [exact H |].
  apply IH, handle_payment_step, H.
Qed.

Lemma payments_stay_in_step_witness :
  map_Forall (fun _ b => payment_in_step b)
    (bookings (handleAll Sample.flow (Sample.store 38 pending 30))).
Proof.
  apply (payments_stay_in_step Sample.flow (Sample.store 38 pending 30)).
  unfold Sample.store. cbn [bookings].
  apply map_Forall_singleton. split; reflexivity.
Defined.

(** ** Buses through a flow of requests *)

Lemma save_preserves_ids (isNew : bool) (b : BusDoc.t) :
  preserves buses_ids_ok (Bus.save isNew b).
Proof.
  intros st Hst.
  destruct (save_cases isNew b st) as [(msg & _ & ->) | (_ & ->)]; simpl.
  - exact Hst.
  - unfold buses_ids_ok. simpl.
    apply map_Forall_insert_2; [reflexivity | exact Hst].
Qed.

Lemma handle_ids_step (r : ApiRequest) (st : Store) :
  buses_ids_ok st -> buses_ids_ok (handle r st).
Proof.
  intros Hids.
  destruct r as [env req | env req | env req | req | env id]; unfold handle.
  - apply createBooking_preserves; [apply save_preserves_ids | exact Hids].
  - apply confirmBooking_preserves; [intros m st0 H; exact H | exact Hids].
  - apply cancelBooking_preserves;
      [apply save_preserves_ids | intros m st0 H; exact H | exact Hids].
  - rewrite updateBus_eq. destruct (negb _); [exact Hids |].
    destruct (buses st !! busController.update_id req) as [b |] eqn:Hb;
      [| exact Hids].
    unfold buses_ids_ok. simpl.
    apply map_Forall_insert_2; [| exact Hids].
    simpl. exact (Hids _ _ Hb).
  - rewrite deleteBus_eq. destruct (buses st !! id); [| assumption].
    cbv zeta. destruct (_ >? 0); [assumption |].
    apply map_Forall_delete; assumption.
Qed.

Lemma handle_schema_step (r : ApiRequest) (st : Store) :
  schema_invariant st -> schema_invariant (handle r st).
Proof.
  intros Hschema.
  destruct r as [env req | env req | env req | req | env id]; unfold handle.
  - apply createBooking_preserves;
      [apply save_preserves_schema | exact Hschema].
  - apply confirmBooking_preserves;
      [intros m st0 H; exact H | exact Hschema].
  - apply cancelBooking_preserves;
      [apply save_preserves_schema | intros m st0 H; exact H | exact Hschema].
  - apply updateBus_preserves_schema, Hschema.
  - rewrite deleteBus_eq. destruct (buses st !! id); [| assumption].
    cbv zeta. destruct (_ >? 0); [assumption |].
    apply map_Forall_delete; assumption.
Qed.

(** X3.  Bus fields through any sequence of requests, where a bus update
    is a body that sets [capacity], [availableSeats] or [status]: if every
    stored bus has a capacity from 1 to 100 and available seats that are
    not negative, this is still so after the sequence. *)
Theorem buses_stay_valid (rs : list ApiRequest) :
  forall st : Store,
    schema_invariant st ->
    forall id bus,
      buses (handleAll rs st) !! id = Some bus ->
      1 <= BusDoc.capacity bus <= 100 /\ 0 <= BusDoc.availableSeats bus.
Proof.
  induction rs as [| r rs IH]; intros st Hschema id bus Hbus; simpl in *.
  - apply validate_None. exact (Hschema _ _ Hbus).
  - exact (IH (handle r st) (handle_schema_step r st Hschema) id bus Hbus).
Qed.

Lemma buses_stay_valid_witness :
  1 <= BusDoc.capacity
         (BusDoc.mk 1 1 40 (Number.of_Z 50) Sample.everyDay active) <= 100
  /\ 0 <= BusDoc.availableSeats
            (BusDoc.mk 1 1 40 (Number.of_Z 50) Sample.everyDay active).
Proof.
  refine (buses_stay_valid Sample.flow (Sample.store 38 pending 30) _ 1%nat
            (BusDoc.mk 1 1 40 (Number.of_Z 50) Sample.everyDay active) _).
  - unfold schema_invariant, Sample.store. cbn [buses].
    apply map_Forall_singleton. vm_compute. reflexivity.
  - vm_compute. reflexivity.
Defined.

(** ** Seats held and seats available *)

Lemma sumZ_Permutation (l1 l2 : list Z) : l1 ≡ₚ l2 -> sumZ l1 = sumZ l2.
Proof.
  induction 1 as [| x l l' _ IH | x y l | l l' l'' _ IH1 _ IH2]; simpl;
    lia.
Qed.

Lemma committed_add (bs : gmap nat BusDoc.t) (m : gmap nat BookingDoc.t)
    (k : nat) (bk : BookingDoc.t) (id : ObjectId) :
  m !! k = None ->
  committed (mkStore bs (<[k := bk]> m)) id
    = seatsHeld id bk + committed (mkStore bs m) id.
Proof.
  intros Hk. unfold committed. simpl.
  rewrite (sumZ_Permutation _
             (map (fun kb => seatsHeld id kb.2) ((k, bk) :: map_to_list m))).
  - reflexivity.
  - apply Permutation_map, map_to_list_insert, Hk.
Qed.

Lemma committed_rewrite (bs : gmap nat BusDoc.t) (m : gmap nat BookingDoc.t)
    (k : nat) (old new : BookingDoc.t) (id : ObjectId) :
  m !! k = Some old ->
  committed (mkStore bs (<[k := new]> m)) id
    = committed (mkStore bs m) id - seatsHeld id old + seatsHeld id new.
Proof.
  intros Hk.
  rewrite <- (insert_delete_eq m k new).
  rewrite committed_add by apply lookup_delete_eq.
  rewrite <- (insert_delete_id m k old Hk) at 2.
  rewrite committed_add by apply lookup_delete_eq.
  lia.
Qed.

Lemma committed_buses (bs bs' : gmap nat BusDoc.t)
    (m : gmap nat BookingDoc.t) (id : ObjectId) :
  committed (mkStore bs m) id = committed (mkStore bs' m) id.
Proof. reflexivity. Qed.

Lemma pre_save_loaded_le (b : BusDoc.t) :
  BusDoc.availableSeats (Bus.pre_save false b) <= BusDoc.availableSeats b.
Proof.
  unfold Bus.pre_save. simpl.
  destruct (Z.gtb_spec (BusDoc.availableSeats b) (BusDoc.capacity b));
    simpl; lia.
Qed.

Lemma seatsHeld_cancelled (id : ObjectId) (b : BookingDoc.t) :
  BookingDoc.status b = cancelled -> seatsHeld id b = 0.
Proof.
  intros Hs. unfold seatsHeld. rewrite Hs.
  rewrite (bool_decide_eq_true_2 _ eq_refl), andb_false_r. reflexivity.
Qed.

Lemma seatsHeld_live (id : ObjectId) (b : BookingDoc.t) :
  BookingDoc.status b <> cancelled ->
  seatsHeld id b
    = if Nat.eqb (BookingDoc.busId b) id then BookingDoc.seatCount b else 0.
Proof.
  intros Hs. unfold seatsHeld.
  rewrite (bool_decide_eq_false_2 _ Hs), andb_true_r. reflexivity.
Qed.

(** Stored bookings stay documents that passed validation. *)
Lemma handle_valid_step (r : ApiRequest) (st : Store) :
  bookings_valid st -> bookings_valid (handle r st).
Proof.
  intros Hvalid. destruct r as [env req | env req | env req | req | env id];
    unfold handle.
  - destruct (createBooking_leaves_store env req st) as (r & -> & _).
    exact Hvalid.
  - rewrite confirmBooking_eq.
    destruct (bookings st !! bookingController.confirm_id req) as [b |];
      [| exact Hvalid].
    destruct (bool_decide (BookingDoc.status b = pending)); [| exact Hvalid].
    destruct (Booking.validate env b) eqn:Hv; [exact Hvalid |].
    simpl. apply map_Forall_insert_2; [| exact Hvalid].
    exists env. rewrite validate_confirmed. exact Hv.
  - destruct (cancelBooking_cases env req st)
      as [(r & -> & _) | (b & Hb & _ & _ & Hout)]; [exact Hvalid |].
    cbv zeta in Hout.
    destruct (buses st !! BookingDoc.busId b);
      [destruct Hout as [[Hv Hout] | [_ Hout]] | destruct Hout as [Hv Hout]];
      rewrite Hout; simpl; try exact Hvalid;
      (apply map_Forall_insert_2; [exists env; exact Hv | exact Hvalid]).
  - rewrite updateBus_eq. destruct (negb _); [exact Hvalid |].
    destruct (buses st !! _); exact Hvalid.
  - rewrite deleteBus_eq. destruct (buses st !! id); [| exact Hvalid].
    cbv zeta. destruct (_ >? 0); exact Hvalid.
Qed.

(** One request of the booking flow keeps every bus within capacity. *)
Lemma handle_overbooking_step (r : ApiRequest) (st : Store) :
  isBookingFlow r ->
  buses_ids_ok st ->
  bookings_ids_ok st ->
  bookings_valid st ->
  no_overbooking st ->
  no_overbooking (handle r st).
Proof.
  intros Hflow Hbus_ids Hbk_ids Hvalid Hinv.
  destruct r as [env req | env req | env req | req | env id0];
    unfold handle; [| | | contradiction |].
  - (* create *)
    destruct (createBooking_leaves_store env req st) as (r & -> & _).
    exact Hinv.
  - (* confirm *)
    rewrite confirmBooking_eq.
    destruct (bookings st !! bookingController.confirm_id req) as [b |]
      eqn:Hb; [| exact Hinv].
    destruct (bool_decide (BookingDoc.status b = pending)) eqn:Hs;
      [| exact Hinv].
    destruct (Booking.validate env b); [exact Hinv |].
    apply bool_decide_eq_true in Hs.
    pose proof (Hbk_ids _ _ Hb) as Hkey. simpl in Hkey.
    cbv zeta. cbn [snd]. unfold set_bookings.
    intros id bus. cbn [buses]. intros Hbus.
    rewrite Hkey.
    rewrite (committed_rewrite _ _ _ b) by exact Hb.
    rewrite (seatsHeld_live id b) by (rewrite Hs; discriminate).
    rewrite (seatsHeld_live id (BookingDoc.set_paymentStatus paid
                                  (BookingDoc.set_status confirmed b)))
      by (simpl; discriminate).
    change (committed {| buses := buses st; bookings := bookings st |} id)
      with (committed st id).
    pose proof (Hinv _ _ Hbus) as Hold.
    simpl. lia.
  - (* cancel *)
    destruct (cancelBooking_cases env req st)
      as [(r & -> & _) | (b & Hb & _ & Hcan & Hout)]; [exact Hinv |].
    destruct (Hvalid _ _ Hb) as [env0 Hv0].
    pose proof (validate_cancelledDoc env0 env b
                  (bookingController.reasonOrDefault
                     (bookingController.cancel_reason req)) Hv0 Hcan) as Hvdoc.
    apply canCancel_iff in Hcan as [Hs _]. cbv zeta in Hout.
    pose proof (Hbk_ids _ _ Hb) as Hkey. simpl in Hkey.
    destruct (buses st !! BookingDoc.busId b) as [bus |] eqn:Hbus;
      [destruct Hout as [[_ Hout] | [Hbad _]]; [| contradiction]
      | destruct Hout as [_ Hout]];
      rewrite Hout; clear Hout; cbn [snd]; intros id b'; cbn [buses].
    + unfold released.
      destruct (pre_save_fields false
                  (BusDoc.set_availableSeats
                     (Z.min (BusDoc.availableSeats bus + BookingDoc.seatCount b)
                        (BusDoc.capacity bus)) bus)) as [Hid' Hcap'].
      simpl in Hid', Hcap'.
      pose proof (Hbus_ids _ _ Hbus) as Hbkey. simpl in Hbkey.
      rewrite Hid', Hbkey, Hkey.
      rewrite (committed_rewrite _ _ _ b) by exact Hb.
      rewrite (seatsHeld_cancelled id (cancelledDoc _ _ _)) by reflexivity.
      rewrite (seatsHeld_live id b) by (rewrite Hs; discriminate).
      rewrite (committed_buses _ (buses st)).
      change (committed {| buses := buses st; bookings := bookings st |} id)
        with (committed st id).
      destruct (decide (BookingDoc.busId b = id)) as [<- | Hne].
      * rewrite lookup_insert_eq, Nat.eqb_refl. intros [= <-].
        rewrite Hcap'.
        pose proof (pre_save_loaded_le
                      (BusDoc.set_availableSeats
                         (Z.min (BusDoc.availableSeats bus
                                 + BookingDoc.seatCount b)
                            (BusDoc.capacity bus)) bus)) as Hle.
        simpl in Hle.
        pose proof (Hinv _ _ Hbus) as Hold. lia.
      * rewrite lookup_insert_ne by exact Hne. intros Hb'.
        apply Nat.eqb_neq in Hne. rewrite Hne.
        pose proof (Hinv _ _ Hb') as Hold. lia.
    + unfold set_bookings. cbn [buses]. intros Hb'. rewrite Hkey.
      rewrite (committed_rewrite _ _ _ b) by exact Hb.
      rewrite (seatsHeld_cancelled id (cancelledDoc _ _ _)) by reflexivity.
      rewrite (seatsHeld_live id b) by (rewrite Hs; discriminate).
      assert (BookingDoc.busId b <> id) as Hne by congruence.
      apply Nat.eqb_neq in Hne. rewrite Hne.
      change (committed {| buses := buses st; bookings := bookings st |} id)
        with (committed st id).
      pose proof (Hinv _ _ Hb') as Hold. lia.
  - (* delete bus *)
    rewrite deleteBus_eq. destruct (buses st !! id0); [| exact Hinv].
    cbv zeta. destruct (_ >? 0); [exact Hinv |].
    cbn [snd]. intros id b'. unfold set_buses. cbn [buses]. intros Hb'.
    apply lookup_delete_Some in Hb' as [_ Hb'].
    exact (Hinv _ _ Hb').
Qed.

(** X4.  No overbooking: start from a store whose documents sit under
    their own ids, whose bookings each passed the validators of the schema
    at some instant, and where, for every bus, the available seats plus
    the seats held by bookings that are not cancelled fit in the capacity.
    After any sequence of create, confirm, cancel and bus-delete requests
    the seats available plus the seats held still fit in the capacity of
    every stored bus. *)
Theorem bookings_never_exceed_capacity (rs : list ApiRequest) :
  forall st : Store,
    Forall isBookingFlow rs ->
    buses_ids_ok st ->
    bookings_ids_ok st ->
    bookings_valid st ->
    no_overbooking st ->
    forall id bus,
      buses (handleAll rs st) !! id = Some bus ->
      BusDoc.availableSeats bus + committed (handleAll rs st) id
        <= BusDoc.capacity bus.
Proof.
  induction rs as [| r rs IH];
    intros st Hflow Hbus_ids Hbk_ids Hvalid Hinv; simpl.
  - exact Hinv.
  - apply Forall_cons in Hflow as [Hr Hrs].
    apply (IH (handle r st)); [exact Hrs | | | |].
    + apply handle_ids_step, Hbus_ids.
    + apply handle_bookings_step, Hbk_ids.
    + apply handle_valid_step, Hvalid.
    + apply handle_overbooking_step; assumption.
Qed.

Lemma bookings_never_exceed_capacity_witness :
  BusDoc.availableSeats (Sample.bus 38)
  + committed (handleAll Sample.bookingFlow (Sample.store 38 pending 30)) 1
  <= BusDoc.capacity (Sample.bus 38).
Proof.
  apply (bookings_never_exceed_capacity Sample.bookingFlow
           (Sample.store 38 pending 30)).
  - repeat constructor.
  - unfold buses_ids_ok, Sample.store. cbn [buses].
    apply map_Forall_singleton. reflexivity.
  - unfold bookings_ids_ok, Sample.store. cbn [bookings].
    apply map_Forall_singleton. reflexivity.
  - unfold bookings_valid, Sample.store. cbn [bookings].
    apply map_Forall_singleton. exists Sample.env. vm_compute. reflexivity.
  - intros id bus Hbus. unfold Sample.store in Hbus. cbn [buses] in Hbus.
    apply lookup_singleton_Some in Hbus as [<- <-].
    vm_compute. discriminate.
  - vm_compute. reflexivity.
Defined.

(** ** Deleting a bus *)

Lemma activeBooking_spec (env : Env) (id : ObjectId) (b : BookingDoc.t) :
  busController.activeBooking env id b = true <-> blocksDelete env id b.
Proof.
  unfold busController.activeBooking, blocksDelete.
  rewrite !andb_true_iff, Nat.eqb_eq, bool_decide_eq_true, Z.leb_le.
  rewrite !elem_of_cons, elem_of_nil. intuition congruence.
Qed.

Lemma filter_stored_nil (p : BookingDoc.t -> bool)
    (m : gmap nat BookingDoc.t) :
  (forall k b, m !! k = Some b -> p b = false) ->
  List.filter p (map snd (map_to_list m)) = [].
Proof.
  intros H.
  assert (Forall (fun b => p b = false) (map snd (map_to_list m))) as Hall.
  { apply Forall_forall. intros b Hb.
    apply list_elem_of_fmap in Hb as ([k b'] & -> & Hkb).
    apply elem_of_map_to_list in Hkb. exact (H _ _ Hkb). }
  induction Hall as [| b l Hb _ IH]; simpl; [reflexivity |].
  rewrite Hb. exact IH.
Qed.

Lemma filter_stored_pos (p : BookingDoc.t -> bool)
    (m : gmap nat BookingDoc.t) (k : nat) (b : BookingDoc.t) :
  m !! k = Some b -> p b = true ->
  0 < Z.of_nat (length (List.filter p (map snd (map_to_list m)))).
Proof.
  intros Hk Hp.
  assert (In b (List.filter p (map snd (map_to_list m)))) as Hin.
  { apply filter_In. split; [| exact Hp].
    apply list_elem_of_In, list_elem_of_fmap. exists (k, b). split; [reflexivity |].
    apply elem_of_map_to_list. exact Hk. }
  destruct (List.filter p (map snd (map_to_list m))); [destruct Hin |].
  simpl. lia.
Qed.

(** The count of the handler is the number of blocking bookings. *)
Lemma countDocuments_active (env : Env) (id : ObjectId) (st : Store) :
  Z.of_nat
    (length (List.filter (busController.activeBooking env id)
               (map snd (map_to_list (bookings st)))))
  = activeCount env id st.
Proof.
  unfold activeCount. do 2 f_equal. apply filter_ext. intros b.
  apply eq_true_iff_eq.
  rewrite activeBooking_spec, bool_decide_eq_true. reflexivity.
Qed.

Lemma activeCount_zero (env : Env) (id : ObjectId) (st : Store) :
  activeCount env id st = 0
  <-> forall k b, bookings st !! k = Some b -> ~ blocksDelete env id b.
Proof.
  rewrite <- countDocuments_active. split.
  - intros Hzero k b Hk Hblock. apply activeBooking_spec in Hblock.
    pose proof (filter_stored_pos _ _ _ _ Hk Hblock). lia.
  - intros Hnone. rewrite filter_stored_nil; [reflexivity |].
    intros k b Hk. apply not_true_is_false.
    rewrite activeBooking_spec. exact (Hnone k b Hk).
Qed.

Lemma activeCount_nonneg (env : Env) (id : ObjectId) (st : Store) :
  0 <= activeCount env id st.
Proof. unfold activeCount. lia. Qed.

(** X5.  Deleting a stored bus: when no stored booking of the bus is
    pending or confirmed with a travel date at or after the current
    instant, the handler answers 200 and removes the bus document and
    nothing else; when there are such bookings it answers 400 with their
    number and leaves the store as it was. *)
Theorem deleteBus_guarded_by_active_bookings (env : Env) (id : ObjectId)
    (st : Store) (bus : BusDoc.t) :
  buses st !! id = Some bus ->
  ((forall k b, bookings st !! k = Some b -> ~ blocksDelete env id b) ->
   busController.deleteBus env id st
     = (deleteJson 200 BusDeleted, mkStore (delete id (buses st)) (bookings st)))
  /\ ((exists k b, bookings st !! k = Some b /\ blocksDelete env id b) ->
      0 < activeCount env id st
      /\ busController.deleteBus env id st
         = (deleteJson 400 (CannotDeleteBus (activeCount env id st)), st)).
Proof.
  intros Hbus. rewrite deleteBus_eq, Hbus. cbv zeta.
  rewrite countDocuments_active. split.
  - intros Hnone. apply activeCount_zero in Hnone. rewrite Hnone.
    reflexivity.
  - intros (k & b & Hk & Hblock).
    assert (0 < activeCount env id st) as Hpos.
    { pose proof (activeCount_nonneg env id st).
      destruct (decide (activeCount env id st = 0)) as [Hz | Hz]; [| lia].
      exfalso. exact (proj1 (activeCount_zero env id st) Hz k b Hk Hblock). }
    split; [exact Hpos |].
    apply Z.gtb_lt in Hpos. rewrite Hpos. reflexivity.
Qed.

Lemma deleteBus_guarded_by_active_bookings_witness :
  busController.deleteBus Sample.env 1 (Sample.emptyStore 40)
    = (deleteJson 200 BusDeleted,
       mkStore (delete 1%nat (buses (Sample.emptyStore 40)))
         (bookings (Sample.emptyStore 40)))
  /\ 0 < activeCount Sample.env 1 (Sample.store 38 confirmed 30)
  /\ busController.deleteBus Sample.env 1 (Sample.store 38 confirmed 30)
     = (deleteJson 400
          (CannotDeleteBus
             (activeCount Sample.env 1 (Sample.store 38 confirmed 30))),
        Sample.store 38 confirmed 30).
Proof.
  split.
  - apply (deleteBus_guarded_by_active_bookings Sample.env 1
             (Sample.emptyStore 40) (Sample.bus 40)); [reflexivity |].
    intros k b Hk. simpl in Hk. rewrite lookup_empty in Hk. discriminate.
  - apply (deleteBus_guarded_by_active_bookings Sample.env 1
             (Sample.store 38 confirmed 30) (Sample.bus 38)); [reflexivity |].
    exists 0%nat, (Sample.booking confirmed 30).
    split; [reflexivity |].
    split; [reflexivity |].
    split; [right; reflexivity | vm_compute; discriminate].
Defined.

(** ** What a create request can do *)


(** X10.  The virtual [isBookable] and the create handler agree on what
    cannot be booked: a create request that names a stored bus for which
    [isBookable] is false is answered 400 and nothing is written. *)
Theorem createBooking_needs_bookable_bus (env : Env)
    (req : bookingController.CreateRequest) (st : Store) (bus : BusDoc.t) :
  buses st !! bookingController.create_busId req = Some bus ->
  Bus.isBookable bus = false ->
  exists r,
    bookingController.createBooking env req st = (r, st)
    /\ statusCode r = 400.
Proof.
  intros Hbus Hbookable. unfold_create.
  destruct (bookingController.validationResult_isEmpty req) eqn:Hval;
    cbv beta iota delta [negb]; [| eauto].
  rewrite Hbus.
  destruct (bool_decide (BusDoc.status bus = active)) eqn:Hact;
    cbv beta iota delta [negb]; [| eauto].
  destruct (_ <? startOfDay env (now env)); [eauto |].
  destruct (bool_decide (_ ∈ BusDoc.operatingDays bus));
    cbv beta iota delta [negb]; [| eauto].
  unfold Bus.isBookable in Hbookable. rewrite Hact in Hbookable.
  simpl in Hbookable.
  unfold bookingController.validationResult_isEmpty in Hval.
  apply andb_true_iff in Hval as [Hlen _]. apply Nat.leb_le in Hlen.
  destruct (Z.ltb_spec (BusDoc.availableSeats bus)
              (Z.of_nat (length (bookingController.create_passengerDetails req))))
    as [_ | Hge]; [eauto |].
  destruct (Z.gtb_spec (BusDoc.availableSeats bus) 0); [discriminate | lia].
Qed.

Lemma createBooking_needs_bookable_bus_witness :
  exists r,
    bookingController.createBooking Sample.env
      (Sample.createRequest ["A1"]%string) (Sample.emptyStore 0)
      = (r, Sample.emptyStore 0)
    /\ statusCode r = 400.
Proof.
  apply (createBooking_needs_bookable_bus Sample.env
           (Sample.createRequest ["A1"]%string) (Sample.emptyStore 0)
           (Sample.bus 0)).
  - reflexivity.
  - vm_compute. reflexivity.
Defined.

(** ** Who can cancel, and when *)

(** X11.  The cancel handler writes nothing unless it is allowed: when it
    answers 200, or when the store after the call differs from the store
    before it, the named booking is stored, the caller is an admin or its
    owner, its status is confirmed and the travel date is more than two
    hours after the current instant.  So a pending booking is never
    cancelled, although the handler's own status check lets it through. *)
Theorem cancelBooking_writes_only_when_allowed (env : Env)
    (req : bookingController.CancelRequest) (st st' : Store) (r : Response) :
  bookingController.cancelBooking env req st = (r, st') ->
  statusCode r = 200 \/ st' <> st ->
  exists b,
    bookings st !! bookingController.cancel_id req = Some b
    /\ authorised req b
    /\ BookingDoc.status b = confirmed
    /\ 2 * msPerHour < BookingDoc.travelDate b - now env.
Proof.
  intros Hrun Hwrote.
  destruct (cancelBooking_cases env req st)
    as [(r0 & Hr0 & Hcode) | (b & Hb & Hauth & Hcan & _)].
  - rewrite Hrun in Hr0. injection Hr0 as -> ->.
    destruct Hwrote as [H200 | Hneq]; [contradiction | congruence].
  - exists b. apply canCancel_iff in Hcan. tauto.
Qed.

Lemma cancelBooking_writes_only_when_allowed_witness :
  exists b,
    bookings (Sample.store 38 confirmed 30)
      !! bookingController.cancel_id Sample.cancelRequest = Some b
    /\ authorised Sample.cancelRequest b
    /\ BookingDoc.status b = confirmed
    /\ 2 * msPerHour < BookingDoc.travelDate b - now Sample.env.
Proof.
  apply (cancelBooking_writes_only_when_allowed Sample.env
           Sample.cancelRequest (Sample.store 38 confirmed 30)
           (bookingController.cancelBooking Sample.env Sample.cancelRequest
              (Sample.store 38 confirmed 30)).2
           (bookingController.cancelBooking Sample.env Sample.cancelRequest
              (Sample.store 38 confirmed 30)).1).
  - apply surjective_pairing.
  - left. vm_compute. reflexivity.
Defined.

(** ** Updating a bus *)

(** X12.  The bus update writes the fields as given, without the save
    hook: an update of a stored bus that sets a capacity from 1 to 100
    below the stored number of available seats and does not set the
    available seats is answered 200, and the bus it stores has the new
    capacity, the old number of available seats, and so more available
    seats than capacity. *)
Theorem updateBus_lower_capacity_keeps_seats
    (req : busController.UpdateRequest) (st : Store) (bus : BusDoc.t)
    (c : Z) :
  buses st !! busController.update_id req = Some bus ->
  Bus.upd_capacity (busController.update_body req) = Some c ->
  Bus.upd_availableSeats (busController.update_body req) = None ->
  1 <= c <= 100 ->
  c < BusDoc.availableSeats bus ->
  exists doc,
    busController.updateBus req st
      = (json 200 (BusUpdated (Some doc)),
         mkStore (<[busController.update_id req := doc]> (buses st))
           (bookings st))
    /\ BusDoc.capacity doc = c
    /\ BusDoc.availableSeats doc = BusDoc.availableSeats bus
    /\ BusDoc.capacity doc < BusDoc.availableSeats doc.
Proof.
  intros Hbus Hcap Hseats Hc Hlow.
  exists (Bus.applyUpdate (busController.update_body req) bus).
  rewrite updateBus_eq.
  assert (busController.validationResult_isEmpty req = true) as ->.
  { unfold busController.validationResult_isEmpty.
    rewrite Hcap, Hseats.
    destruct (Z.leb_spec 1 c); [| lia].
    destruct (Z.leb_spec c 100); [| lia]. reflexivity. }
  cbv beta iota delta [negb]. rewrite Hbus. cbv zeta.
  unfold Bus.applyUpdate. rewrite Hcap, Hseats. simpl.
  repeat split. exact Hlow.
Qed.

Lemma updateBus_lower_capacity_keeps_seats_witness :
  exists doc,
    busController.updateBus Sample.shrinkRequest (Sample.emptyStore 2)
      = (json 200 (BusUpdated (Some doc)),
         mkStore
           (<[busController.update_id Sample.shrinkRequest := doc]>
              (buses (Sample.emptyStore 2)))
           (bookings (Sample.emptyStore 2)))
    /\ BusDoc.capacity doc = 1
    /\ BusDoc.availableSeats doc = BusDoc.availableSeats (Sample.bus 2)
    /\ BusDoc.capacity doc < BusDoc.availableSeats doc.
Proof.
  apply (updateBus_lower_capacity_keeps_seats Sample.shrinkRequest
           (Sample.emptyStore 2) (Sample.bus 2) 1).
  - reflexivity.
  - reflexivity.
  - reflexivity.
  - lia.
  - vm_compute. reflexivity.
Defined.

(** ** The role gates *)

(** X13.  [adminOnly] is [authorize('admin')] up to the wording of the
    403 answer: on every request both let it pass, or both answer with
    the same status. *)
Theorem adminOnly_agrees_with_authorize_admin (req : roleAuth.Request) :
  gateStatus (roleAuth.adminOnly req)
    = gateStatus (roleAuth.authorize [admin] req).
Proof.
  unfold roleAuth.adminOnly, roleAuth.authorize.
  destruct (roleAuth.req_user req) as [u |]; [| reflexivity].
  destruct (decide (role u = admin)) as [Hr | Hr].
  - rewrite (bool_decide_eq_true_2 _ Hr).
    rewrite (bool_decide_eq_true_2 (role u ∈ [admin]))
      by (rewrite Hr; apply list_elem_of_here).
    reflexivity.
  - rewrite (bool_decide_eq_false_2 _ Hr).
    rewrite (bool_decide_eq_false_2 (role u ∈ [admin]))
      by (intros Hin; apply list_elem_of_singleton in Hin; contradiction).
    reflexivity.
Qed.

(** X14.  No role gate lets a request without [req.user] pass: each of
    [authorize(...roles)], [adminOnly], [ownerOrAdmin(field)] and
    [profileOwnerOrAdmin] answers 401 exactly when the request has no
    user, and when it denies a request that has one the status is 403. *)
Theorem role_gates_need_a_user (roles : list Role) (field : string)
    (req : roleAuth.Request) :
  needsUser (roleAuth.authorize roles) req
  /\ needsUser roleAuth.adminOnly req
  /\ needsUser (roleAuth.ownerOrAdmin field) req
  /\ needsUser roleAuth.profileOwnerOrAdmin req.
Proof.
  unfold needsUser, roleAuth.authorize, roleAuth.adminOnly,
    roleAuth.ownerOrAdmin, roleAuth.profileOwnerOrAdmin.
  destruct (roleAuth.req_user req) as [u |]; cbv zeta;
    repeat split;
    repeat match goal with
           | |- context [if ?c then _ else _] => destruct c
           | |- context [match ?c with Some _ => _ | None => _ end] =>
               destruct c
           end;
    simpl; first [congruence | tauto].
Qed.

(** X15.  In [ownerOrAdmin(field)] the field of the request body comes
    before the path parameter: for a caller who is not an admin and a
    request whose body carries an id in that field, the gate opens
    exactly when that id is the caller's own, whatever [params.userId]
    and [req.resource] hold; without the body field, [params.userId]
    decides in the same way. *)
Theorem ownerOrAdmin_body_field_comes_first (field : string)
    (req : roleAuth.Request) (u : User) (claimed : ObjectId) :
  roleAuth.req_user req = Some u ->
  role u <> admin ->
  (roleAuth.req_body req field = Some claimed
   \/ (roleAuth.req_body req field = None
       /\ roleAuth.req_params_userId req = Some claimed)) ->
  (roleAuth.ownerOrAdmin field req = next <-> claimed = user_id u).
Proof.
  intros Hu Hrole Hclaimed. unfold roleAuth.ownerOrAdmin.
  rewrite Hu, (bool_decide_eq_false_2 _ Hrole). cbv zeta.
  assert (roleAuth.orElse (roleAuth.req_body req field)
            (roleAuth.orElse (roleAuth.req_params_userId req)
               match roleAuth.req_resource req with
               | Some resource => resource field
               | None => None
               end) = Some claimed) as ->.
  { destruct Hclaimed as [-> | [-> ->]]; reflexivity. }
  destruct (Nat.eqb_spec claimed (user_id u)); split;
    congruence || discriminate || tauto.
Qed.

Lemma ownerOrAdmin_body_field_comes_first_witness :
  roleAuth.ownerOrAdmin "userId"
    {| roleAuth.req_user := Some Sample.john;
       roleAuth.req_body := fun _ => Some 7%nat;
       roleAuth.req_params_id := None;
       roleAuth.req_params_userId := Some 8%nat;
       roleAuth.req_resource := None |} = next
  <-> 7%nat = user_id Sample.john.
Proof.
  apply (ownerOrAdmin_body_field_comes_first "userId"
           {| roleAuth.req_user := Some Sample.john;
              roleAuth.req_body := fun _ => Some 7%nat;
              roleAuth.req_params_id := None;
              roleAuth.req_params_userId := Some 8%nat;
              roleAuth.req_resource := None |}
           Sample.john 7%nat).
  - reflexivity.
  - discriminate.
  - left. reflexivity.
Defined.

(** ** Reading the token *)

Lemma split_space_nonempty (s : string) : split_space s <> [].
Proof.
  induction s as [| c s IH]; simpl; [discriminate |].
  destruct (Ascii.eqb c " "); [discriminate |].
  destruct (split_space s); discriminate.
Qed.

(** The pieces of [a +:+ " " +:+ s] for a piece [a] without space. *)
Lemma split_space_app (a s : string) :
  spaceFree a = true ->
  split_space (a +:+ String " "%char s) = a :: split_space s.
Proof.
  induction a as [| c a IH]; intros Hfree.
  - reflexivity.
  - unfold spaceFree in Hfree. simpl in Hfree.
    apply andb_true_iff in Hfree as [Hc Hfree].
    apply negb_true_iff in Hc.
    change (String c a +:+ String " "%char s)
      with (String c (a +:+ String " "%char s)).
    cbn [split_space]. rewrite Hc, (IH Hfree). reflexivity.
Qed.

Lemma split_space_spaceFree (a : string) :
  spaceFree a = true -> split_space a = [a].
Proof.
  induction a as [| c a IH]; intros Hfree; [reflexivity |].
  unfold spaceFree in Hfree. simpl in Hfree.
  apply andb_true_iff in Hfree as [Hc Hfree].
  apply negb_true_iff in Hc.
  cbn [split_space]. rewrite Hc, (IH Hfree). reflexivity.
Qed.

(** X16.  The token is the second piece of the header: for a token
    without space, [Authorization: Bearer <token>] gives the token back,
    also when more pieces follow it after a space; a header that is just
    [Bearer<token>], without the space, starts with Bearer and gives no
    token. *)
Theorem bearerToken_reads_second_piece (token rest : string) :
  spaceFree token = true ->
  auth.bearerToken (Some ("Bearer " +:+ token)) = Some token
  /\ auth.bearerToken (Some ("Bearer " +:+ token +:+ String " "%char rest))
     = Some token
  /\ auth.bearerToken (Some ("Bearer" +:+ token)) = None.
Proof.
  intros Hfree. unfold auth.bearerToken. repeat split.
  - change ("Bearer " +:+ token)
      with ("Bearer" +:+ String " "%char token).
    rewrite split_space_app by reflexivity.
    rewrite split_space_spaceFree by exact Hfree. reflexivity.
  - change ("Bearer " +:+ token +:+ String " "%char rest)
      with ("Bearer" +:+ String " "%char (token +:+ String " "%char rest)).
    rewrite split_space_app by reflexivity.
    rewrite split_space_app by exact Hfree. reflexivity.
  - rewrite split_space_spaceFree
      by (unfold spaceFree in *; simpl; exact Hfree).
    destruct (_ && _); reflexivity.
Qed.

Lemma bearerToken_reads_second_piece_witness :
  auth.bearerToken (Some ("Bearer " +:+ "abc.def.ghi")) = Some "abc.def.ghi"%string
  /\ auth.bearerToken
       (Some ("Bearer " +:+ "abc.def.ghi" +:+ String " "%char "x"))
     = Some "abc.def.ghi"%string
  /\ auth.bearerToken (Some ("Bearer" +:+ "abc.def.ghi")) = None.
Proof.
  apply (bearerToken_reads_second_piece "abc.def.ghi" "x").
  vm_compute. reflexivity.
Defined.

(** ** Protected and optional authentication *)

(** X17.  [optionalAuth] attaches a user exactly when [protect] lets the
    request through, and then it is the same user: the user the verified
    token names, stored and active.  Every refusal of [protect] is a
    401. *)
Theorem optionalAuth_agrees_with_protect (verify : string -> Verified)
    (findUser : ObjectId -> option Account) (authorization : option string) :
  (forall u,
     auth.protect verify findUser authorization = attached u
     <-> auth.optionalAuth verify findUser authorization = Some u)
  /\ (forall u,
        auth.protect verify findUser authorization = attached u ->
        exists token id acct,
          auth.bearerToken authorization = Some token
          /\ token <> EmptyString
          /\ verify token = Decoded id
          /\ findUser id = Some acct
          /\ isActive acct = true
          /\ account acct = u)
  /\ (forall status message,
        auth.protect verify findUser authorization = refused status message ->
        status = 401).
Proof.
  unfold auth.protect, auth.optionalAuth, auth.noToken. cbv zeta.
  destruct (auth.bearerToken authorization) as [token |]; simpl.
  2:{ repeat split; intros; try discriminate; congruence. }
  destruct (String.eqb_spec token ""); simpl.
  { repeat split; intros; try discriminate; congruence. }
  destruct (verify token) as [id | | |] eqn:Hverify;
    try (repeat split; intros; try discriminate; congruence).
  destruct (findUser id) as [acct |] eqn:Hfind;
    [| repeat split; intros; try discriminate; congruence].
  destruct (isActive acct) eqn:Hactive; simpl;
    [| repeat split; intros; try discriminate; congruence].
  split; [| split].
  - intros u. split; congruence.
  - intros u [= <-]. exists token, id, acct. repeat split; assumption.
  - intros status message. discriminate.
Qed.

(** ** A cancellation that stops half way *)

(** X18.  The cancel handler releases the seats before it saves the
    booking, and undoes nothing.  For a stored booking that can be
    cancelled, on a stored bus that passes its validators, whose document
    after the assignments of the cancellation does not pass the validators
    of the booking schema: the handler, called by an admin or the owner,
    answers 500; the bus is stored with the seats released, up to its
    capacity; every booking is stored as it was, the one of the request
    still confirmed. *)
Theorem cancelBooking_releases_then_fails (env : Env)
    (req : bookingController.CancelRequest) (st : Store) (b : BookingDoc.t)
    (bus : BusDoc.t) :
  bookings st !! bookingController.cancel_id req = Some b ->
  authorised req b ->
  Booking.canCancel env b = true ->
  buses st !! BookingDoc.busId b = Some bus ->
  Bus.validate bus = None ->
  0 <= BookingDoc.seatCount b ->
  Booking.validate env
    (cancelledDoc env b
       (bookingController.reasonOrDefault
          (bookingController.cancel_reason req))) <> None ->
  exists doc,
    bookingController.cancelBooking env req st
      = (json 500 (ServerError "Server error while cancelling booking"),
         mkStore (<[BusDoc._id bus := doc]> (buses st)) (bookings st))
    /\ BusDoc.availableSeats doc
       = Z.min (BusDoc.availableSeats bus + BookingDoc.seatCount b)
           (BusDoc.capacity bus)
    /\ BookingDoc.status b = confirmed.
Proof.
  intros Hb Hauth Hcan Hbus Hv Hn Hbad.
  apply canCancel_iff in Hcan as Hcan'. destruct Hcan' as [Hs _].
  eexists. split; [| split; [| exact Hs]].
  - unfold_cancel. rewrite Hb, (authorised_guard req b Hauth).
    rewrite Hs. cbv beta iota.
    rewrite (bool_decide_eq_false_2 (confirmed = cancelled)) by discriminate.
    rewrite (bool_decide_eq_false_2 (confirmed = completed)) by discriminate.
    rewrite cancelBooking_accepts by exact Hcan.
    unfold bind, Bus.findById. rewrite Hbus.
    rewrite releaseSeats_ok by assumption.
    unfold ret. cbv beta iota.
    match goal with
    | |- context [Booking.save env false ?d ?s] =>
        destruct (booking_save_cases env false d s)
          as [(msg & Hmsg & ->) | (Hok & _)]; [| contradiction]
    end.
    simpl. rewrite (validate_message _ _ _ Hmsg). reflexivity.
  - reflexivity.
Qed.

Lemma cancelBooking_releases_then_fails_witness :
  exists doc,
    bookingController.cancelBooking Sample.env Sample.cancelRequest
      Sample.oddContactStore
      = (json 500 (ServerError "Server error while cancelling booking"),
         mkStore
           (<[BusDoc._id (Sample.bus 39) := doc]>
              (buses Sample.oddContactStore))
           (bookings Sample.oddContactStore))
    /\ BusDoc.availableSeats doc
       = Z.min (BusDoc.availableSeats (Sample.bus 39)
                + BookingDoc.seatCount Sample.oddContactBooking)
           (BusDoc.capacity (Sample.bus 39))
    /\ BookingDoc.status Sample.oddContactBooking = confirmed.
Proof.
  apply (cancelBooking_releases_then_fails Sample.env Sample.cancelRequest
           Sample.oddContactStore Sample.oddContactBooking (Sample.bus 39)).
  - vm_compute. reflexivity.
  - right. reflexivity.
  - vm_compute. reflexivity.
  - vm_compute. reflexivity.
  - vm_compute. reflexivity.
  - vm_compute. discriminate.
  - vm_compute. discriminate.
Defined.

(** ** Buses and the bookings that name them *)

Lemma served_later (t t' : Z) (st : Store) :
  t <= t' -> served t st -> served t' st.
Proof.
  intros Hle Hs k b Hb Hstatus Ht. apply (Hs k b Hb Hstatus). lia.
Qed.

(** A write of one bus, and of one booking that names a stored bus or is
    cancelled, keeps the property. *)
Lemma served_insert_bus (t : Z) (st : Store) (id : ObjectId)
    (doc : BusDoc.t) :
  served t st ->
  served t (set_buses (<[id := doc]> (buses st)) st).
Proof.
  intros Hs k b Hb Hstatus Ht. simpl in *.
  destruct (Hs k b Hb Hstatus Ht) as [bus Hbus].
  destruct (decide (id = BookingDoc.busId b)) as [-> | Hne].
  - rewrite lookup_insert_eq. eauto.
  - rewrite lookup_insert_ne by exact Hne. eauto.
Qed.

Lemma served_insert_booking (t : Z) (st : Store) (key : nat)
    (new : BookingDoc.t) :
  served t st ->
  ((BookingDoc.status new = pending \/ BookingDoc.status new = confirmed) ->
   t <= BookingDoc.travelDate new ->
   exists bus, buses st !! BookingDoc.busId new = Some bus) ->
  served t (set_bookings (<[key := new]> (bookings st)) st).
Proof.
  intros Hs Hnew k b Hb Hstatus Ht. simpl in *.
  destruct (decide (key = k)) as [-> | Hne].
  - rewrite lookup_insert_eq in Hb. injection Hb as <-. auto.
  - rewrite lookup_insert_ne in Hb by exact Hne. exact (Hs k b Hb Hstatus Ht).
Qed.

(** One request keeps the property at its own clock. *)
Lemma handle_served_step (t : Z) (r : ApiRequest) (st : Store) :
  served t st ->
  match clock r with Some t' => t <= t' | None => True end ->
  served (default t (clock r)) (handle r st).
Proof.
  intros Hs Hclock.
  destruct r as [env req | env req | env req | req | env id];
    unfold handle; simpl in *.
  - destruct (createBooking_leaves_store env req st) as (r & -> & _).
    exact (served_later _ _ _ Hclock Hs).
  - apply (served_later _ _ _ Hclock) in Hs.
    rewrite confirmBooking_eq.
    destruct (bookings st !! bookingController.confirm_id req) as [b |]
      eqn:Hb; [| exact Hs].
    destruct (bool_decide (BookingDoc.status b = pending)) eqn:Hst;
      [| exact Hs].
    destruct (Booking.validate env b); [exact Hs |].
    apply bool_decide_eq_true in Hst.
    cbv zeta. cbn [snd]. apply served_insert_booking; [exact Hs |].
    simpl. intros _ Ht. apply (Hs _ _ Hb); [left; exact Hst | exact Ht].
  - apply (served_later _ _ _ Hclock) in Hs.
    destruct (cancelBooking_cases env req st)
      as [(r & -> & _) | (b & Hb & _ & _ & Hout)]; [exact Hs |].
    cbv zeta in Hout.
    destruct (buses st !! BookingDoc.busId b) as [bus |];
      [destruct Hout as [[_ Hout] | [_ Hout]] | destruct Hout as [_ Hout]];
      rewrite Hout; cbn [snd].
    + match goal with
      | |- served ?t (mkStore ?A (<[?k := ?d]> _)) =>
          change (served t
                    (set_bookings
                       (<[k := d]> (bookings (set_buses A st)))
                       (set_buses A st)))
      end.
      apply served_insert_booking; [apply served_insert_bus, Hs |].
      simpl. intros [H | H]; discriminate H.
    + apply served_insert_bus, Hs.
    + apply served_insert_booking; [exact Hs |].
      simpl. intros [H | H]; discriminate H.
  - rewrite updateBus_eq. destruct (negb _); [exact Hs |].
    destruct (buses st !! busController.update_id req); [| exact Hs].
    cbv zeta. cbn [snd]. apply served_insert_bus, Hs.
  - apply (served_later _ _ _ Hclock) in Hs.
    rewrite deleteBus_eq. destruct (buses st !! id) as [bus |] eqn:Hbus;
      [| exact Hs].
    cbv zeta. rewrite countDocuments_active.
    destruct (Z.gtb_spec (activeCount env id st) 0) as [Hpos | Hzero];
      [exact Hs |].
    assert (activeCount env id st = 0) as Hz
      by (pose proof (activeCount_nonneg env id st); lia).
    cbn [snd]. intros k b Hb Hstatus Ht. simpl in *.
    destruct (Hs k b Hb Hstatus Ht) as [bus' Hbus'].
    exists bus'. rewrite lookup_delete_ne; [exact Hbus' |].
    intros Heq.
    apply (proj1 (activeCount_zero env id st) Hz k b Hb).
    split; [symmetry; exact Heq |]. split; [exact Hstatus | exact Ht].
Qed.

Lemma handleAll_served (rs : list ApiRequest) :
  forall (t : Z) (st : Store),
    served t st -> inOrder t rs ->
    served (lastClock t rs) (handleAll rs st).
Proof.
  induction rs as [| r rs IH]; intros t st Hs Hord; simpl.
  - exact Hs.
  - apply IH.
    + apply handle_served_step; [exact Hs |].
      simpl in Hord. destruct (clock r); [tauto | exact I].
    + simpl in Hord. destruct (clock r); simpl; tauto.
Qed.

(** X19.  The bus delete never strands a booking that can still be
    cancelled.  Start from a store where every booking that is pending or
    confirmed and travels at [t] or later names a stored bus.  After any
    sequence of requests, each run to completion before the next, whose
    clocks do not run backwards from [t], this still holds at the last
    clock read; and at that instant or later, a stored booking for which
    [canCancel] holds names a stored bus, so the cancellation releases its
    seats. *)
Theorem cancellable_booking_has_its_bus (rs : list ApiRequest) (t : Z)
    (st : Store) :
  served t st ->
  inOrder t rs ->
  served (lastClock t rs) (handleAll rs st)
  /\ forall (env : Env) k b,
       lastClock t rs <= now env ->
       bookings (handleAll rs st) !! k = Some b ->
       Booking.canCancel env b = true ->
       exists bus,
         buses (handleAll rs st) !! BookingDoc.busId b = Some bus.
Proof.
  intros Hs Hord.
  pose proof (handleAll_served rs t st Hs Hord) as Hend.
  split; [exact Hend |].
  intros env k b Hnow Hb Hcan.
  apply canCancel_iff in Hcan as [Hstatus Htime].
  apply (Hend k b Hb); [right; exact Hstatus |].
  unfold msPerHour in Htime. lia.
Qed.

Lemma cancellable_booking_has_its_bus_witness :
  served (lastClock (now Sample.env) Sample.deleteThenCancel)
    (handleAll Sample.deleteThenCancel (Sample.store 38 confirmed 30))
  /\ forall (env : Env) k b,
       lastClock (now Sample.env) Sample.deleteThenCancel <= now env ->
       bookings
         (handleAll Sample.deleteThenCancel (Sample.store 38 confirmed 30))
         !! k = Some b ->
       Booking.canCancel env b = true ->
       exists bus,
         buses
           (handleAll Sample.deleteThenCancel (Sample.store 38 confirmed 30))
           !! BookingDoc.busId b = Some bus.
Proof.
  apply (cancellable_booking_has_its_bus Sample.deleteThenCancel
           (now Sample.env) (Sample.store 38 confirmed 30)).
  - intros k b Hb _ _. unfold Sample.store in Hb. cbn [bookings] in Hb.
    apply lookup_singleton_Some in Hb as [_ <-].
    exists (Sample.bus 38). reflexivity.
  - simpl. unfold msPerHour. lia.
Defined.
